(** * Connector selection (airbyte-ci) and the Amazon Ads Sponsored Products streams

    A shallow embedding of

    - [pipelines/airbyte_ci/cdk_java/commands.py]: the selection of the
      connectors a CI command runs on, and the choice between remote and
      local connector secrets;
    - [source_amazon_ads/streams/sponsored_products.py]: the Sponsored
      Products v3 streams (continuation token, request body, handling of the
      response of the streams sliced by ad group).

    Python sets are [gset]s, dicts are [gmap]s, tuples and lists are lists.
    A function that can raise returns a [Result]; a function that logs
    returns the log records next to its value; a generator returns what it
    yielded together with the exception that ended it, if any. *)

From Stdlib Require Import ZArith.
From stdpp Require Import gmap strings list fin_maps fin_sets pretty.

Open Scope Z_scope.

(** ** Exceptions and results *)

Inductive Exn : Type :=
  | UsageError (msg : string)      (* click.UsageError *)
  | JSONDecodeError                (* json / requests decode error *)
  | KeyError (key : string)
  | TypeError
  | AttributeError
  | HTTPError (status : Z).        (* requests.HTTPError *)

Inductive Result (A : Type) : Type :=
  | Ok (a : A)
  | Raise (e : Exn).
Arguments Ok {A} a.
Arguments Raise {A} e.

(** The error monad, with stdpp's [x ← m; k] notation. *)
#[global] Instance Result_ret : MRet Result := λ A a, Ok a.
#[global] Instance Result_bind : MBind Result := λ A B k r,
  match r with
  | Ok a => k a
  | Raise e => Raise e
  end.

Definition returns {A} (r : Result A) : Prop := ∃ a, r = Ok a.

(** ** JSON documents as the Python values [json.loads] produces

    [JNull] is Python's [None].  Numbers are kept integral. *)

#[warnings="-register-all"]
Inductive JSON : Type :=
  | JNull
  | JBool (b : bool)
  | JInt (n : Z)
  | JString (s : string)
  | JList (l : list JSON)
  | JDict (d : gmap string JSON).

(** Python truthiness, as used by [if value:]. *)
Definition truthy (v : JSON) : bool :=
  match v with
  | JNull => false
  | JBool b => b
  | JInt n => negb (n =? 0)
  | JString s => negb (bool_decide (s = ""))
  | JList l => negb (bool_decide (l = []))
  | JDict d => negb (bool_decide (dom d = ∅))
  end.

(** [d.get(key, None)] on a value that should be a dict. *)
Definition dict_get (v : JSON) (key : string) : Result JSON :=
  match v with
  | JDict d => Ok (default JNull (d !! key))
  | _ => Raise AttributeError
  end.

(** [d[key]]: the subscript of a dict; other values do not take a string
    subscript. *)
Definition subscript (v : JSON) (key : string) : Result JSON :=
  match v with
  | JDict d => match d !! key with
               | Some x => Ok x
               | None => Raise (KeyError key)
               end
  | _ => Raise TypeError
  end.

(** * airbyte-ci: [commands.py] *)

Module Commands.

(** A path is the list of its components ([pathlib.Path.parts]). *)
Abbreviation Path := (list string).

(** Modelled from the spec: the connector record of the registry
    ([connector_ops.utils.Connector] is not among the sources).  The spec's
    data model lists technical name, relative path, language, support level,
    metadata and changelog entry files; the metadata document is only read
    through [metadata_query_match], a parameter below. *)
Record Connector : Type := {
  technical_name : string;
  relative_connector_path : Path;
  language : string;
  support_level : string;
  changelog_entry_files : list Path;
}.

#[global] Instance Connector_eq_dec : EqDecision Connector.
Proof. solve_decision. Defined.

Definition Connector_to_list (c : Connector) : list (list string) :=
  [technical_name c; language c; support_level c]
    :: relative_connector_path c :: changelog_entry_files c.

Definition Connector_of_list (l : list (list string)) : Connector :=
  match l with
  | [n; lg; sl] :: p :: fs =>
      {| technical_name := n; relative_connector_path := p; language := lg;
         support_level := sl; changelog_entry_files := fs |}
  | _ =>
      {| technical_name := ""; relative_connector_path := []; language := "";
         support_level := ""; changelog_entry_files := [] |}
  end.

#[global] Instance Connector_countable : Countable Connector.
Proof.
  refine (inj_countable' Connector_to_list Connector_of_list _).
  by intros [].
Defined.

(** [ConnectorWithModifiedFiles(relative_connector_path=..., modified_files=...)] *)
Record ConnectorWithModifiedFiles : Type := {
  cwmf_relative_connector_path : Path;
  modified_files : gset Path;
}.

(** ** Secrets policy *)

(** [os.environ]; [os.getenv name] is the lookup. *)
Definition getenv (environ : gmap string string) (name : string) : option string :=
  environ !! name.

(** [bool(os.getenv(...))]: set and not the empty string. *)
Definition env_is_set (v : option string) : bool :=
  match v with
  | Some s => negb (bool_decide (s = ""))
  | None => false
  end.

Definition msg_found : string :=
  "GCP_GSM_CREDENTIALS environment variable found, using remote connector secrets.".
Definition msg_not_found : string :=
  "No GCP_GSM_CREDENTIALS environment variable found, using local connector secrets.".
Definition msg_local_flag : string :=
  "Using local connector secrets as the --use-local-secrets flag was provided".
Definition msg_usage : string :=
  "The --use-remote-secrets flag was provided but no GCP_GSM_CREDENTIALS environment variable was found.".

(** [should_use_remote_secrets]: the records sent to [main_logger.info] and
    the value returned or the exception raised. *)
Definition should_use_remote_secrets
    (environ : gmap string string) (use_remote_secrets : option bool)
  : list string * Result bool :=
  let gcp_gsm_credentials_is_set := env_is_set (getenv environ "GCP_GSM_CREDENTIALS") in
  match use_remote_secrets with
  | None =>
      if gcp_gsm_credentials_is_set then ([msg_found], Ok true)
      else ([msg_not_found], Ok false)
  | Some true =>
      if gcp_gsm_credentials_is_set then ([msg_found], Ok true)
      else ([], Raise (UsageError msg_usage))
  | Some false => ([msg_local_flag], Ok false)
  end.

(** ** Selection of connectors *)

(** What the module reads of the connector registry and of its
    collaborators. *)
Class Registry : Type := {
  (** [ALL_CONNECTORS = get_all_connectors_in_repo()], loaded once. *)
  ALL_CONNECTORS : gset Connector;
  (** [connector.metadata_query_match(query)], evaluated by the registry. *)
  metadata_query_match : Connector → string → bool;
  (** The file name of a connector's metadata file, a constant of the
      registry. *)
  METADATA_FILE_NAME : string;
  (** The connectors matched through the dependency graph when dependency
      scanning is enabled: a capability of a collaborator. *)
  dependency_modified_connectors : gset Path → gset Connector → gset Connector;
}.

Section Selection.

Context `{Registry}.

(** A file is under a directory when the directory's components are a
    prefix of the file's. *)
Definition is_under (file directory : Path) : Prop := directory `prefix_of` file.

#[local] Instance is_under_dec file directory : Decision (is_under file directory).
Proof. unfold is_under. apply _. Defined.

(** Modelled from the spec: [get_modified_connectors] of
    [pipelines.helpers.connectors.modifed], which is not among the sources.
    A connector matches if any changed file path is under the connector's
    relative path; dependency scanning additionally matches what the
    dependency graph gives. *)
Definition get_modified_connectors
    (files : gset Path) (all_connectors : gset Connector)
    (dependency_scanning : bool) : gset Connector :=
  filter (λ c, set_Exists (λ f, is_under f (relative_connector_path c)) files)
         all_connectors
  ∪ (if dependency_scanning
     then dependency_modified_connectors files all_connectors else ∅).

(** Modelled from the spec: [get_connector_modified_files] of the same absent
    module: the subset of the global modified-file set that falls under the
    connector's path. *)
Definition get_connector_modified_files
    (connector : Connector) (files : gset Path) : gset Path :=
  filter (λ f, is_under f (relative_connector_path connector)) files.

(** Modelled from the spec: the property [has_metadata_change] of
    [ConnectorWithModifiedFiles], absent as well: the connector's set of
    changed files includes its metadata file. *)
Definition has_metadata_change (c : ConnectorWithModifiedFiles) : bool :=
  bool_decide
    (cwmf_relative_connector_path c ++ [METADATA_FILE_NAME] ∈ modified_files c).

(** The selection criteria: the arguments of
    [get_selected_connectors_with_modified_files] other than the modified
    files, by name. *)
Record Criteria : Type := {
  selected_names : list string;
  selected_support_levels : list string;
  selected_languages : list string;
  modified : bool;
  metadata_changes_only : bool;
  with_changelog_entry_files : bool;
  metadata_query : string;
  enable_dependency_scanning : bool;
}.

(** [if metadata_changes_only and not modified: modified = True] *)
Definition modified_override (cr : Criteria) : bool :=
  metadata_changes_only cr && negb (modified cr).

Definition effective_modified (cr : Criteria) : bool :=
  if modified_override cr then true else modified cr.

Definition selected_modified_connectors (cr : Criteria) (files : gset Path)
  : gset Connector :=
  if effective_modified cr
  then get_modified_connectors files ALL_CONNECTORS (enable_dependency_scanning cr)
  else ∅.

Definition selected_connectors_by_name (cr : Criteria) : gset Connector :=
  filter (λ c, technical_name c ∈ selected_names cr) ALL_CONNECTORS.

Definition selected_connectors_by_support_level (cr : Criteria) : gset Connector :=
  filter (λ c, support_level c ∈ selected_support_levels cr) ALL_CONNECTORS.

Definition selected_connectors_by_language (cr : Criteria) : gset Connector :=
  filter (λ c, language c ∈ selected_languages cr) ALL_CONNECTORS.

(** [... if metadata_query else set()]: an empty query selects nothing. *)
Definition selected_connectors_by_query (cr : Criteria) : gset Connector :=
  if bool_decide (metadata_query cr = "") then ∅
  else filter (λ c, metadata_query_match c (metadata_query cr) = true) ALL_CONNECTORS.

Definition selected_connectors_by_changelog_entry_files (cr : Criteria)
  : gset Connector :=
  if with_changelog_entry_files cr
  then filter (λ c, changelog_entry_files c ≠ []) ALL_CONNECTORS
  else ∅.

(** The six candidate subsets, in the order of the source. *)
Definition candidate_connector_sets (cr : Criteria) (files : gset Path)
  : list (gset Connector) :=
  [ selected_connectors_by_name cr;
    selected_connectors_by_support_level cr;
    selected_connectors_by_language cr;
    selected_connectors_by_query cr;
    selected_modified_connectors cr files;
    selected_connectors_by_changelog_entry_files cr ].

(** [[s for s in [...] if s]] *)
Definition non_empty_connector_sets (cr : Criteria) (files : gset Path)
  : list (gset Connector) :=
  filter (λ s, s ≠ ∅) (candidate_connector_sets cr files).

(** [set.intersection] applied to a first set and the remaining ones. *)
Definition set_intersection (s : gset Connector) (rest : list (gset Connector))
  : gset Connector :=
  foldl (∩) s rest.

(** The intersection of the non-empty sets if there is one, [set()]
    otherwise. *)
Definition selected_connectors (cr : Criteria) (files : gset Path) : gset Connector :=
  match non_empty_connector_sets cr files with
  | [] => ∅
  | s :: rest => set_intersection s rest
  end.

Definition with_modified_files (files : gset Path) (connector : Connector)
  : ConnectorWithModifiedFiles :=
  {| cwmf_relative_connector_path := relative_connector_path connector;
     modified_files := get_connector_modified_files connector files |}.

(** One turn of the loop over the selected connectors. *)
Definition append_selected (cr : Criteria) (files : gset Path)
    (acc : list ConnectorWithModifiedFiles) (connector : Connector)
  : list ConnectorWithModifiedFiles :=
  let connector_with_modified_files := with_modified_files files connector in
  if negb (metadata_changes_only cr) then acc ++ [connector_with_modified_files]
  else if has_metadata_change connector_with_modified_files
       then acc ++ [connector_with_modified_files]
       else acc.

Definition msg_override : string := "--metadata-changes-only overrides --modified".

(** [get_selected_connectors_with_modified_files]: the records logged and
    the list returned.  The loop runs over the set in the order [elements]
    gives, as Python iterates over a set in an order of its own. *)
Definition get_selected_connectors_with_modified_files
    (cr : Criteria) (modified_files : gset Path)
  : list string * list ConnectorWithModifiedFiles :=
  ( (if modified_override cr then [msg_override] else []),
    foldl (append_selected cr modified_files) []
          (elements (selected_connectors cr modified_files)) ).

End Selection.

(** ** Environment *)

Definition required_env_vars_for_ci : list string :=
  [ "GCP_GSM_CREDENTIALS"; "CI_REPORT_BUCKET_NAME"; "CI_GITHUB_ACCESS_TOKEN";
    "DOCKER_HUB_USERNAME"; "DOCKER_HUB_PASSWORD" ].

Definition msg_repository_root : string :=
  "You need to run this command from the repository root.".

Definition msg_required_env_var (required_env_var : string) : string :=
  "When running in a CI context a " +:+ required_env_var
    +:+ " environment variable must be set.".

(** The loop over the required variables:
    [if os.getenv(required_env_var) is None: raise ...] *)
Fixpoint check_required_env_vars
    (environ : gmap string string) (required : list string) : Result unit :=
  match required with
  | [] => Ok tt
  | required_env_var :: later =>
      match getenv environ required_env_var with
      | None => Raise (UsageError (msg_required_env_var required_env_var))
      | Some _ => check_required_env_vars environ later
      end
  end.

(** [validate_environment].  [git_is_dir] is [Path(".git").is_dir()], what
    the file system answers. *)
Definition validate_environment
    (git_is_dir : bool) (environ : gmap string string) (is_local : bool)
  : Result unit :=
  if is_local then
    if negb git_is_dir then Raise (UsageError msg_repository_root) else Ok tt
  else check_required_env_vars environ required_env_vars_for_ci.

(** ** The command group *)

Section Group.

Context `{Registry}.

(** [c.technical_name] of a [ConnectorWithModifiedFiles], which the
    connector class derives from the path. *)
Variable technical_name_of : ConnectorWithModifiedFiles → string.

(** [log_selected_connectors]: the record sent to [main_logger.info]. *)
Definition log_selected_connectors
    (selected_connectors_with_modified_files : list ConnectorWithModifiedFiles)
  : string :=
  match selected_connectors_with_modified_files with
  | [] => "No connectors to run."
  | _ =>
      let selected_connectors_names :=
        technical_name_of <$> selected_connectors_with_modified_files in
      "Will run on the following " +:+ pretty (length selected_connectors_names)
        +:+ " connectors: " +:+ String.concat ", " selected_connectors_names +:+ "."
  end.

(** The body of the group [connectors], on the options of [ctx.obj].
    [diff] is what the awaited [get_modified_files] gives, as paths; it is
    asked for only under [--modified] or [--metadata-changes-only].  The
    result is the log and the value stored under
    [selected_connectors_with_modified_files]. *)
Definition connectors
    (git_is_dir : bool) (environ : gmap string string) (diff : list Path)
    (is_local : bool) (cr : Criteria)
  : Result (list string * list ConnectorWithModifiedFiles) :=
  validate_environment git_is_dir environ is_local;;
  let modified_files : list Path :=
    if modified cr || metadata_changes_only cr then diff else [] in
  let '(logs, selected) :=
    get_selected_connectors_with_modified_files cr (list_to_set modified_files) in
  mret (logs ++ [log_selected_connectors selected], selected).

End Group.

End Commands.

(** * Amazon Ads: [sponsored_products.py] *)

Module SponsoredProducts.

(** ** What the code uses of [http.HTTPStatus] and of [requests] *)

Definition OK : Z := 200.
Definition BAD_REQUEST : Z := 400.
Definition NOT_FOUND : Z := 404.
Definition UNPROCESSABLE_ENTITY : Z := 422.

(** [response.request]: the prepared request.  [headers] maps a header name
    to its value.  [body] is the outcome of [json.loads(request.body)], an
    exception when the body is absent or is not JSON. *)
Record Request : Type := {
  url : string;
  headers : gmap string string;
  body : Result JSON;
}.

(** A [requests.Response].  [json] is the outcome of [response.json()]:
    [None] when the body is not valid JSON and the call raises. *)
Record Response : Type := {
  status_code : Z;
  text : string;
  json : option JSON;
  request : Request;
}.

(** [Response.raise_for_status()] of [requests]: an [HTTPError] for the
    client errors 4xx and the server errors 5xx, nothing otherwise. *)
Definition raise_for_status (response : Response) : option Exn :=
  if (400 <=? status_code response) && (status_code response <? 600)
  then Some (HTTPError (status_code response))
  else None.

(** [Response.ok], which is also the truth value of a response. *)
Definition ok (response : Response) : bool :=
  match raise_for_status response with
  | Some _ => false
  | None => true
  end.

(** ** Streams *)

(** The concrete stream classes of the module. *)
Inductive StreamClass : Type :=
  | SponsoredProductCampaigns
  | SponsoredProductAdGroups
  | SponsoredProductAdGroupBidRecommendations
  | SponsoredProductAdGroupSuggestedKeywords
  | SponsoredProductKeywords
  | SponsoredProductNegativeKeywords
  | SponsoredProductCampaignNegativeKeywords
  | SponsoredProductAds
  | SponsoredProductTargetings.

#[global] Instance StreamClass_eq_dec : EqDecision StreamClass.
Proof. solve_decision. Defined.

(** The classes below [SponsoredProductAdGroupWithSlicesABC]. *)
Definition with_slices (cls : StreamClass) : bool :=
  match cls with
  | SponsoredProductAdGroupBidRecommendations
  | SponsoredProductAdGroupSuggestedKeywords => true
  | _ => false
  end.

(** A stream object: its class, the attribute [state_filter] set by
    [__init__], and [page_size], which the base class of the streams
    defines. *)
Record Stream : Type := {
  stream_class : StreamClass;
  state_filter : JSON;
  page_size : Z;
}.

(** [SponsoredProductsV3.__init__]:
    [self.state_filter = kwargs.get("config", {}).get("state_filter")] *)
Definition init (cls : StreamClass) (config : option (gmap string JSON))
    (page_size : Z) : Stream :=
  {| stream_class := cls;
     state_filter := default JNull (default ∅ config !! "state_filter");
     page_size := page_size |}.

(** [SponsoredProductsV3.next_page_token] *)
Definition next_page_token (response : option Response) : Result JSON :=
  match response with
  | None => Ok JNull
  | Some r =>
      if negb (ok r) then Ok JNull
      else match json r with
           | None => Raise JSONDecodeError
           | Some doc => dict_get doc "nextToken"
           end
  end.

(** [SponsoredProductsV3.request_body_json] *)
Definition SponsoredProductsV3_request_body_json (self : Stream)
    (stream_state : gmap string JSON) (stream_slice : option (gmap string JSON))
    (next_page_token : JSON) : gmap string JSON :=
  let request_body : gmap string JSON := ∅ in
  let request_body :=
    if truthy (state_filter self)
    then <["stateFilter" := JDict {["include" := state_filter self]}]> request_body
    else request_body in
  let request_body := <["maxResults" := JInt (page_size self)]> request_body in
  let request_body := <["nextToken" := next_page_token]> request_body in
  request_body.

Definition targetingExpressions : JSON :=
  JList [JDict (<["value" := JString "hello"]>
                  {["type" := JString "KEYWORD_BROAD_MATCH"]})].

(** [stream_slice[key]]; the default slice [None] takes no subscript. *)
Definition slice_item (stream_slice : option (gmap string JSON)) (key : string)
  : Result JSON :=
  match stream_slice with
  | None => Raise TypeError
  | Some d => subscript (JDict d) key
  end.

(** [SponsoredProductAdGroupBidRecommendations.request_body_json] *)
Definition SponsoredProductAdGroupBidRecommendations_request_body_json
    (self : Stream) (stream_state : gmap string JSON)
    (stream_slice : option (gmap string JSON)) (next_page_token : JSON)
  : Result (gmap string JSON) :=
  let request_body : gmap string JSON := ∅ in
  let request_body := <["targetingExpressions" := targetingExpressions]> request_body in
  adGroupId ← slice_item stream_slice "adGroupId";
  let request_body := <["adGroupId" := adGroupId]> request_body in
  campaignId ← slice_item stream_slice "campaignId";
  let request_body := <["campaignId" := campaignId]> request_body in
  let request_body :=
    <["recommendationType" := JString "BIDS_FOR_EXISTING_AD_GROUP"]> request_body in
  mret request_body.

(** The dict the method above returns, as a function of the two identifiers
    it reads from the slice; the statements below compare with it. *)
Definition bid_recommendations_body (adGroupId campaignId : JSON) : gmap string JSON :=
  <["recommendationType" := JString "BIDS_FOR_EXISTING_AD_GROUP"]>
    (<["campaignId" := campaignId]>
       (<["adGroupId" := adGroupId]>
          (<["targetingExpressions" := targetingExpressions]> ∅))).

(** [stream.request_body_json(...)], resolved along the class hierarchy: only
    the bid recommendations override the method of [SponsoredProductsV3]. *)
Definition request_body_json (self : Stream)
    (stream_state : gmap string JSON) (stream_slice : option (gmap string JSON))
    (next_page_token : JSON) : Result (gmap string JSON) :=
  match stream_class self with
  | SponsoredProductAdGroupBidRecommendations =>
      SponsoredProductAdGroupBidRecommendations_request_body_json
        self stream_state stream_slice next_page_token
  | _ =>
      Ok (SponsoredProductsV3_request_body_json
            self stream_state stream_slice next_page_token)
  end.

(** ** The response of the streams sliced by ad group *)

(** The records sent to [self.logger.warning], with the values their
    messages are formatted from. *)
Inductive Warning : Type :=
  | SkipUnsupported (url scope text : string)
  | SkipNoAsins (adGroupId : JSON) (url : string)
  | SkipNoBid (url scope text : string).

(** What running a generator to its end gives. *)
Record Generated : Type := {
  yielded : list JSON;
  logged : list Warning;
  raised : option Exn;
}.

Definition scope_header : string := "Amazon-Advertising-API-Scope".

(** [request.headers['Amazon-Advertising-API-Scope']] *)
Definition scope_of (req : Request) : Result string :=
  match headers req !! scope_header with
  | Some scope => Ok scope
  | None => Raise (KeyError scope_header)
  end.

(** A branch that formats a warning and logs it: the formatting can raise. *)
Definition warn (already : list JSON) (w : Result Warning) : Generated :=
  match w with
  | Ok record => {| yielded := already; logged := [record]; raised := None |}
  | Raise e => {| yielded := already; logged := []; raised := Some e |}
  end.

(** [SponsoredProductAdGroupWithSlicesABC.parse_response] *)
Definition parse_response (response : Response) : Generated :=
  match json response with
  | None => {| yielded := []; logged := []; raised := Some JSONDecodeError |}
  | Some resp =>
      let already := if status_code response =? OK then [resp] else [] in
      let req := request response in
      if status_code response =? BAD_REQUEST then
        warn already
          (scope ← scope_of req; mret (SkipUnsupported (url req) scope (text response)))
      else if status_code response =? UNPROCESSABLE_ENTITY then
        warn already
          (doc ← body req; adGroupId ← subscript doc "adGroupId";
           mret (SkipNoAsins adGroupId (url req)))
      else if status_code response =? NOT_FOUND then
        warn already
          (scope ← scope_of req; mret (SkipNoBid (url req) scope (text response)))
      else
        {| yielded := already; logged := []; raised := raise_for_status response |}
  end.

(** The four statuses the method names. *)
Definition named_status (status : Z) : Prop :=
  status = OK ∨ status = BAD_REQUEST ∨ status = NOT_FOUND
  ∨ status = UNPROCESSABLE_ENTITY.

(** ** Pagination *)

(** How a run of the pagination loop ends. *)
Inductive PaginationEnd : Type :=
  | Complete
  | NothingServed
  | Failed (e : Exn).

(** Modelled from the spec: the pagination loop of the stream base class of
    the framework, which is not among the sources.  One request at a time;
    every response is a page; pagination terminates when the response
    contains no continuation token.  [responses] is what the transport
    serves, in order. *)
Fixpoint read_pages (responses : list Response) : list Response * PaginationEnd :=
  match responses with
  | [] => ([], NothingServed)
  | response :: later =>
      match next_page_token (Some response) with
      | Raise e => ([response], Failed e)
      | Ok JNull => ([response], Complete)
      | Ok _ => let '(pages, ending) := read_pages later in (response :: pages, ending)
      end
  end.

(** ** Request headers *)

(** The class attribute [content_type] of the classes that define one; the
    suggested keywords define none in this module. *)
Definition content_type (cls : StreamClass) : option string :=
  match cls with
  | SponsoredProductCampaigns => Some "application/vnd.spCampaign.v3+json"
  | SponsoredProductAdGroups => Some "application/vnd.spAdGroup.v3+json"
  | SponsoredProductAdGroupBidRecommendations =>
      Some "application/vnd.spthemebasedbidrecommendation.v4+json"
  | SponsoredProductAdGroupSuggestedKeywords => None
  | SponsoredProductKeywords => Some "application/vnd.spKeyword.v3+json"
  | SponsoredProductNegativeKeywords =>
      Some "application/vnd.spNegativeKeyword.v3+json"
  | SponsoredProductCampaignNegativeKeywords =>
      Some "application/vnd.spCampaignNegativeKeyword.v3+json"
  | SponsoredProductAds => Some "application/vnd.spProductAd.v3+json"
  | SponsoredProductTargetings => Some "application/vnd.spTargetingClause.v3+json"
  end.

(** [self.content_type]: the attribute of the class, or what the lookup in
    the base classes outside this module gives. *)
Definition self_content_type (self : Stream) (inherited : Result string)
  : Result string :=
  match content_type (stream_class self) with
  | Some media_type => Ok media_type
  | None => inherited
  end.

(** [SponsoredProductsV3.request_headers].  [super_headers] is what
    [super().request_headers(...)] returned. *)
Definition request_headers (self : Stream) (super_headers : gmap string string)
    (inherited : Result string) : Result (gmap string string) :=
  let headers := super_headers in
  accept ← self_content_type self inherited;
  let headers := <["Accept" := accept]> headers in
  content ← self_content_type self inherited;
  let headers := <["Content-Type" := content]> headers in
  mret headers.

End SponsoredProducts.

(** * Sample data *)

Module Examples.
Import Commands SponsoredProducts.

Definition source_a : Connector :=
  {| technical_name := "source-a";
     relative_connector_path := ["airbyte-integrations"; "connectors"; "source-a"];
     language := "python"; support_level := "certified";
     changelog_entry_files := [] |}.

Definition source_b : Connector :=
  {| technical_name := "source-b";
     relative_connector_path := ["airbyte-integrations"; "connectors"; "source-b"];
     language := "java"; support_level := "community";
     changelog_entry_files := [] |}.

(** A registry of the two connectors: no metadata query matches, and the
    dependency graph is empty. *)
#[export] Instance sample_registry : Registry :=
  {| ALL_CONNECTORS := {[source_a; source_b]};
     metadata_query_match := λ _ _, false;
     METADATA_FILE_NAME := "metadata.yaml";
     dependency_modified_connectors := λ _ _, ∅ |}.

(** [--name source-a] and nothing else. *)
Definition by_name : Criteria :=
  {| selected_names := ["source-a"]; selected_support_levels := [];
     selected_languages := []; modified := false; metadata_changes_only := false;
     with_changelog_entry_files := false; metadata_query := "";
     enable_dependency_scanning := false |}.

(** [--name source-a --metadata-changes-only] *)
Definition by_name_metadata_only : Criteria :=
  {| selected_names := ["source-a"]; selected_support_levels := [];
     selected_languages := []; modified := false; metadata_changes_only := true;
     with_changelog_entry_files := false; metadata_query := "";
     enable_dependency_scanning := false |}.

(** The metadata file of [source_a] and a file outside both connectors. *)
Definition changed_files : gset Path :=
  {[ ["airbyte-integrations"; "connectors"; "source-a"; "metadata.yaml"];
     ["docs"; "index.md"] ]}.

(** A CI environment with every required variable set, the credentials to
    the empty string. *)
Definition ci_environ_empty_credentials : gmap string string :=
  <["GCP_GSM_CREDENTIALS" := ""]>
    (<["CI_REPORT_BUCKET_NAME" := "bucket"]>
       (<["CI_GITHUB_ACCESS_TOKEN" := "token"]>
          (<["DOCKER_HUB_USERNAME" := "user"]>
             {["DOCKER_HUB_PASSWORD" := "password"]}))).

(** An environment with the credentials only. *)
Definition environ_credentials_only : gmap string string :=
  {["GCP_GSM_CREDENTIALS" := "secret"]}.

(** [--language python], with a name that matches no connector. *)
Definition by_unknown_name_and_language : Criteria :=
  {| selected_names := ["source-typo"]; selected_support_levels := [];
     selected_languages := ["python"]; modified := false;
     metadata_changes_only := false; with_changelog_entry_files := false;
     metadata_query := ""; enable_dependency_scanning := false |}.

Definition environ_with_credentials : gmap string string :=
  {["GCP_GSM_CREDENTIALS" := "secret"]}.

Definition bid_recommendations : Stream :=
  init SponsoredProductAdGroupBidRecommendations
       (Some {["state_filter" := JList [JString "enabled"]]}) 100.

Definition suggested_keywords : Stream :=
  init SponsoredProductAdGroupSuggestedKeywords None 100.

Definition campaigns : Stream :=
  init SponsoredProductCampaigns
       (Some {["state_filter" := JList [JString "enabled"]]}) 100.

(** A slice: a record of the ad groups stream. *)
Definition ad_group : gmap string JSON :=
  <["campaignId" := JInt 2]> (<["adGroupId" := JInt 1]> {["name" := JString "group"]}).

(** The same ad group as another record: only the name differs. *)
Definition ad_group_renamed : gmap string JSON :=
  <["campaignId" := JInt 2]> (<["adGroupId" := JInt 1]> {["name" := JString "other"]}).

Definition bid_request : Request :=
  {| url := "https://advertising-api.amazon.com/sp/targets/bid/recommendations";
     headers := {[scope_header := "profile-1"]};
     body := Ok (JDict (bid_recommendations_body (JInt 1) (JInt 2))) |}.

(** The request of the suggested keywords: its body is the one of
    [SponsoredProductsV3], without [adGroupId]. *)
Definition keywords_request : Request :=
  {| url := "https://advertising-api.amazon.com/v2/sp/adGroups/1/suggested/keywords";
     headers := {[scope_header := "profile-1"]};
     body := Ok (JDict (SponsoredProductsV3_request_body_json
                          suggested_keywords ∅ (Some ad_group) JNull)) |}.

Definition recommendations_200 : Response :=
  {| status_code := 200; text := "{}"; json := Some (JDict ∅);
     request := bid_request |}.

(** A 404 whose body is a page of HTML. *)
Definition not_json_404 : Response :=
  {| status_code := 404; text := "<html>Not Found</html>"; json := None;
     request := bid_request |}.

Definition not_modified_304 : Response :=
  {| status_code := 304; text := "{}"; json := Some (JDict ∅);
     request := bid_request |}.

Definition no_asins_422 : Response :=
  {| status_code := 422; text := "{}"; json := Some (JDict ∅);
     request := keywords_request |}.

Definition not_found_404 : Response :=
  {| status_code := 404; text := "{}"; json := Some (JDict ∅);
     request := bid_request |}.

Definition no_asins_bid_422 : Response :=
  {| status_code := 422; text := "{}"; json := Some (JDict ∅);
     request := bid_request |}.

(** A request with the headers [request_headers] gives for the bid
    recommendations over the scope header of the base class. *)
Definition bid_request_with_media_type : Request :=
  {| url := "https://advertising-api.amazon.com/sp/targets/bid/recommendations";
     headers :=
       <["Content-Type" := "application/vnd.spthemebasedbidrecommendation.v4+json"]>
         (<["Accept" := "application/vnd.spthemebasedbidrecommendation.v4+json"]>
            {[scope_header := "profile-1"]});
     body := Ok (JDict (bid_recommendations_body (JInt 1) (JInt 2))) |}.

Definition bad_request_400 : Response :=
  {| status_code := 400; text := "not supported"; json := Some (JDict ∅);
     request := bid_request_with_media_type |}.

(** A truthy response whose body is a JSON array. *)
Definition array_200 : Response :=
  {| status_code := 200; text := "[]"; json := Some (JList []);
     request := bid_request |}.

Definition page_with_token : Response :=
  {| status_code := 200; text := "";
     json := Some (JDict (<["nextToken" := JString "A"]> {["campaigns" := JList []]}));
     request := bid_request |}.

Definition page_without_token : Response :=
  {| status_code := 200; text := "";
     json := Some (JDict {["campaigns" := JList []]});
     request := bid_request |}.

End Examples.

(** * Properties of [commands.py] *)

Module CommandsSpec.
Import Commands.

(** ** Secrets policy *)

Lemma env_is_set_true (v : option string) :
  env_is_set v = true ↔ ∃ s, v = Some s ∧ s ≠ "".
Proof.
  destruct v as [s|]; simpl.
  - rewrite negb_true_iff, bool_decide_eq_false. split.
    + intros Hs. by exists s.
    + by intros (s' & [= <-] & Hs).
  - split; [done|]. by intros (s & [=] & _).
Qed.

(** C3. [should_use_remote_secrets] is the three-valued decision table: with
    the flag unset it returns whether GCP_GSM_CREDENTIALS is set to a
    non-empty value; with the flag true it returns true when the variable is
    set and raises a usage error when it is not; with the flag false it
    returns false whatever the environment. *)
Theorem C3_should_use_remote_secrets_table (environ : gmap string string) :
  (env_is_set (getenv environ "GCP_GSM_CREDENTIALS") = true
     ↔ ∃ s, environ !! "GCP_GSM_CREDENTIALS" = Some s ∧ s ≠ "")
  ∧ (should_use_remote_secrets environ None).2
      = Ok (env_is_set (getenv environ "GCP_GSM_CREDENTIALS"))
  ∧ (should_use_remote_secrets environ (Some true)).2
      = (if env_is_set (getenv environ "GCP_GSM_CREDENTIALS")
         then Ok true else Raise (UsageError msg_usage))
  ∧ (should_use_remote_secrets environ (Some false)).2 = Ok false.
Proof.
  split; [apply env_is_set_true|].
  unfold should_use_remote_secrets.
  by destruct (env_is_set _).
Qed.

(** ** Selection *)

Section SelectionSpec.

Context `{Registry}.

(** A criterion given as an empty tuple matches no connector. *)
Lemma filter_in_nil (f : Connector → string) (X : gset Connector) :
  filter (λ c, f c ∈ @nil string) X = ∅.
Proof.
  apply set_eq. intros c. rewrite elem_of_filter, elem_of_nil.
  split; [by intros [] | by intros ?%not_elem_of_empty].
Qed.

Lemma elem_of_set_intersection (c : Connector) s rest :
  c ∈ set_intersection s rest ↔ c ∈ s ∧ ∀ t, t ∈ rest → c ∈ t.
Proof.
  unfold set_intersection. revert s.
  induction rest as [|t rest IH]; intros s; simpl.
  - split; [intros Hc; split; [done|] | by intros [Hc _]].
    intros t Ht. by apply elem_of_nil in Ht.
  - rewrite IH, elem_of_intersection. split.
    + intros [[Hs Ht] Hrest]. split; [done|].
      intros u [->|Hu]%elem_of_cons; auto.
    + intros [Hs Hall]. repeat split; [done| |].
      * apply Hall. left.
      * intros u Hu. apply Hall. by right.
Qed.

Lemma elem_of_non_empty cr files (s : gset Connector) :
  s ∈ non_empty_connector_sets cr files
    ↔ s ≠ ∅ ∧ s ∈ candidate_connector_sets cr files.
Proof. unfold non_empty_connector_sets. by rewrite list_elem_of_filter. Qed.

Lemma elem_of_selected cr files (c : Connector) :
  c ∈ selected_connectors cr files ↔
    non_empty_connector_sets cr files ≠ []
    ∧ ∀ s, s ∈ non_empty_connector_sets cr files → c ∈ s.
Proof.
  unfold selected_connectors.
  destruct (non_empty_connector_sets cr files) as [|s rest].
  - split; [by intros ?%not_elem_of_empty | by intros [? _]].
  - rewrite elem_of_set_intersection. split.
    + intros [Hs Hrest]. split; [done|].
      intros t [->|Ht]%elem_of_cons; auto.
    + intros [_ Hall]. split.
      * apply Hall. left.
      * intros t Ht. apply Hall. by right.
Qed.

Lemma selected_all_empty cr files :
  (∀ s, s ∈ candidate_connector_sets cr files → s = ∅) →
  selected_connectors cr files = ∅.
Proof.
  intros Hempty. unfold selected_connectors.
  destruct (non_empty_connector_sets cr files) as [|s rest] eqn:E; [done|].
  assert (s ∈ non_empty_connector_sets cr files) as [Hne Hs]%elem_of_non_empty
    by (rewrite E; left).
  by apply Hempty in Hs.
Qed.

(** When every non-empty candidate is the same set, the selection is that
    set. *)
Lemma selected_single cr files (s : gset Connector) :
  s ∈ candidate_connector_sets cr files → s ≠ ∅ →
  (∀ t, t ∈ candidate_connector_sets cr files → t ≠ ∅ → t = s) →
  selected_connectors cr files = s.
Proof.
  intros Hs Hne Hothers. apply set_eq. intros c.
  rewrite elem_of_selected. split.
  - intros [_ Hall]. apply Hall. by apply elem_of_non_empty.
  - intros Hc. split.
    + intros E. assert (s ∈ non_empty_connector_sets cr files) as Hin
        by by apply elem_of_non_empty.
      rewrite E in Hin. by apply elem_of_nil in Hin.
    + intros t [Ht1 Ht2]%elem_of_non_empty.
      by rewrite (Hothers t Ht2 Ht1).
Qed.

Lemma nothing_supplied cr files :
  selected_names cr = [] → selected_support_levels cr = [] →
  selected_languages cr = [] → metadata_query cr = "" →
  modified cr = false → metadata_changes_only cr = false →
  with_changelog_entry_files cr = false →
  ∀ s, s ∈ candidate_connector_sets cr files → s = ∅.
Proof.
  intros Hn Hs Hl Hq Hm Hmc Hch s.
  unfold candidate_connector_sets, selected_connectors_by_name,
    selected_connectors_by_support_level, selected_connectors_by_language,
    selected_connectors_by_query, selected_modified_connectors,
    selected_connectors_by_changelog_entry_files,
    effective_modified, modified_override.
  rewrite Hn, Hs, Hl, Hq, Hm, Hmc, Hch. simpl.
  rewrite !elem_of_cons, elem_of_nil.
  rewrite !filter_in_nil. intuition.
Qed.

(** With names as the only criterion, the other five candidates are
    empty. *)
Lemma names_only_others_empty cr files :
  selected_support_levels cr = [] → selected_languages cr = [] →
  metadata_query cr = "" → modified cr = false →
  metadata_changes_only cr = false → with_changelog_entry_files cr = false →
  ∀ (j : nat) t,
    j ≠ 0%nat → candidate_connector_sets cr files !! j = Some t → t = ∅.
Proof.
  intros Hs Hl Hq Hm Hmc Hch j t Hj.
  unfold candidate_connector_sets,
    selected_connectors_by_support_level, selected_connectors_by_language,
    selected_connectors_by_query, selected_modified_connectors,
    selected_connectors_by_changelog_entry_files,
    effective_modified, modified_override.
  rewrite Hs, Hl, Hq, Hm, Hmc, Hch. simpl. rewrite !filter_in_nil.
  destruct j as [|[|[|[|[|[|j]]]]]]; simpl; try congruence.
  by rewrite lookup_nil.
Qed.

(** C1. Before the metadata post-filter, the selection is the
    intersection of exactly the non-empty candidate subsets: a connector is
    selected iff some candidate subset is non-empty and the connector is in
    every non-empty one.  When no criterion is supplied every candidate
    subset is empty; when every candidate subset is empty the selection is
    empty; when exactly one candidate subset is non-empty the selection is
    that subset. *)
Theorem C1_selection_is_intersection_of_non_empty_candidates
    (cr : Criteria) (files : gset Path) :
  (∀ c, c ∈ selected_connectors cr files ↔
        (∃ s, s ∈ candidate_connector_sets cr files ∧ s ≠ ∅)
        ∧ (∀ s, s ∈ candidate_connector_sets cr files → s ≠ ∅ → c ∈ s))
  ∧ (selected_names cr = [] ∧ selected_support_levels cr = []
     ∧ selected_languages cr = [] ∧ metadata_query cr = ""
     ∧ modified cr = false ∧ metadata_changes_only cr = false
     ∧ with_changelog_entry_files cr = false →
     ∀ s, s ∈ candidate_connector_sets cr files → s = ∅)
  ∧ ((∀ s, s ∈ candidate_connector_sets cr files → s = ∅) →
     selected_connectors cr files = ∅)
  ∧ (∀ (i : nat) s,
       candidate_connector_sets cr files !! i = Some s → s ≠ ∅ →
       (∀ (j : nat) t,
          j ≠ i → candidate_connector_sets cr files !! j = Some t → t = ∅) →
       selected_connectors cr files = s).
Proof.
  split; [|split; [|split]].
  - intros c. rewrite elem_of_selected. split.
    + intros [Hne Hall]. split.
      * destruct (non_empty_connector_sets cr files) as [|s rest] eqn:E; [done|].
        exists s. assert (s ∈ non_empty_connector_sets cr files) as Hs
          by (rewrite E; left).
        apply elem_of_non_empty in Hs. tauto.
      * intros s Hs Hs'. apply Hall. by apply elem_of_non_empty.
    + intros [(s & Hs & Hne) Hall]. split.
      * intros E. assert (s ∈ non_empty_connector_sets cr files) as Hin
          by by apply elem_of_non_empty.
        rewrite E in Hin. by apply elem_of_nil in Hin.
      * intros t [Ht1 Ht2]%elem_of_non_empty. by apply Hall.
  - intros (Hn & Hs & Hl & Hq & Hm & Hmc & Hch). by apply nothing_supplied.
  - apply selected_all_empty.
  - intros i s Hi Hne Hothers. apply selected_single; [|done|].
    + by apply list_elem_of_lookup_2 in Hi.
    + intros t [j Hj]%list_elem_of_lookup Ht.
      destruct (decide (j = i)) as [->|Hji]; [congruence|].
      by apply Hothers in Hj.
Qed.

Lemma effective_modified_metadata_only cr :
  metadata_changes_only cr = true → effective_modified cr = true.
Proof.
  unfold effective_modified, modified_override. intros ->.
  by destruct (modified cr).
Qed.

(** The flag [modified] is read through [effective_modified] only. *)
Lemma selected_depends_on_effective_modified cr cr' files :
  selected_names cr = selected_names cr' →
  selected_support_levels cr = selected_support_levels cr' →
  selected_languages cr = selected_languages cr' →
  metadata_query cr = metadata_query cr' →
  with_changelog_entry_files cr = with_changelog_entry_files cr' →
  enable_dependency_scanning cr = enable_dependency_scanning cr' →
  effective_modified cr = effective_modified cr' →
  selected_connectors cr files = selected_connectors cr' files.
Proof.
  intros Hn Hs Hl Hq Hch Hdep Hm.
  unfold selected_connectors, non_empty_connector_sets, candidate_connector_sets,
    selected_connectors_by_name, selected_connectors_by_support_level,
    selected_connectors_by_language, selected_connectors_by_query,
    selected_modified_connectors, selected_connectors_by_changelog_entry_files.
  by rewrite Hn, Hs, Hl, Hq, Hch, Hdep, Hm.
Qed.

(** C4. With [metadata_changes_only] set, the list returned is the same
    whether [modified] is set or not: the flag forces the modified
    criterion on. *)
Theorem C4_metadata_changes_only_forces_modified
    (names support_levels languages : list string)
    (changelog : bool) (query : string) (scanning : bool) (files : gset Path) :
  (get_selected_connectors_with_modified_files
     {| selected_names := names; selected_support_levels := support_levels;
        selected_languages := languages;
        modified := false; metadata_changes_only := true;
        with_changelog_entry_files := changelog; metadata_query := query;
        enable_dependency_scanning := scanning |} files).2
  = (get_selected_connectors_with_modified_files
       {| selected_names := names; selected_support_levels := support_levels;
          selected_languages := languages;
          modified := true; metadata_changes_only := true;
          with_changelog_entry_files := changelog; metadata_query := query;
          enable_dependency_scanning := scanning |} files).2.
Proof.
  unfold get_selected_connectors_with_modified_files. cbn [snd].
  rewrite (selected_depends_on_effective_modified _
             {| selected_names := names; selected_support_levels := support_levels;
                selected_languages := languages;
                modified := true; metadata_changes_only := true;
                with_changelog_entry_files := changelog; metadata_query := query;
                enable_dependency_scanning := scanning |});
    [reflexivity | reflexivity.. |].
  by rewrite !effective_modified_metadata_only.
Qed.

(** The override is reported in the log, and only there. *)
Lemma override_logged (cr : Criteria) (files : gset Path) :
  (get_selected_connectors_with_modified_files cr files).1 =
    if metadata_changes_only cr && negb (modified cr) then [msg_override] else [].
Proof. reflexivity. Qed.

Lemma foldl_append_selected cr files acc (l : list Connector) :
  foldl (append_selected cr files) acc l =
    acc ++ filter (λ r, negb (metadata_changes_only cr) || has_metadata_change r = true)
                  (with_modified_files files <$> l).
Proof.
  revert acc. induction l as [|c l IH]; intros acc; simpl.
  - by rewrite app_nil_r.
  - rewrite IH. unfold append_selected. rewrite filter_cons.
    destruct (negb (metadata_changes_only cr)); simpl.
    + by rewrite <- app_assoc.
    + destruct (has_metadata_change (with_modified_files files c)).
      * rewrite decide_True by done. by rewrite <- app_assoc.
      * by rewrite decide_False by done.
Qed.

Lemma get_selected_filter cr files :
  (get_selected_connectors_with_modified_files cr files).2 =
    filter (λ r, negb (metadata_changes_only cr) || has_metadata_change r = true)
           (with_modified_files files <$> elements (selected_connectors cr files)).
Proof.
  unfold get_selected_connectors_with_modified_files. simpl.
  by rewrite foldl_append_selected.
Qed.

(** C5. With [metadata_changes_only] the function returns exactly the
    connectors of the intersection whose modified files contain their
    metadata file; without it, every connector of the intersection.  Each
    one is paired with the modified files that fall under its path. *)
Theorem C5_metadata_post_filter (cr : Criteria) (files : gset Path) :
  (metadata_changes_only cr = true →
     (get_selected_connectors_with_modified_files cr files).2 =
       filter (λ r, has_metadata_change r = true)
              (with_modified_files files <$> elements (selected_connectors cr files)))
  ∧ (metadata_changes_only cr = false →
     (get_selected_connectors_with_modified_files cr files).2 =
       with_modified_files files <$> elements (selected_connectors cr files))
  ∧ (∀ r, r ∈ (get_selected_connectors_with_modified_files cr files).2 ↔
          ∃ c, c ∈ selected_connectors cr files ∧ r = with_modified_files files c
               ∧ (metadata_changes_only cr = true → has_metadata_change r = true))
  ∧ (∀ c, cwmf_relative_connector_path (with_modified_files files c)
          = relative_connector_path c
        ∧ ∀ f, f ∈ modified_files (with_modified_files files c) ↔
               f ∈ files ∧ is_under f (relative_connector_path c))
  ∧ (∀ r, has_metadata_change r = true ↔
          cwmf_relative_connector_path r ++ [METADATA_FILE_NAME] ∈ modified_files r).
Proof.
  split; [|split; [|split; [|split]]].
  - intros Hmc. rewrite get_selected_filter, Hmc. done.
  - intros Hmc. rewrite get_selected_filter, Hmc. simpl.
    induction (with_modified_files files <$> elements (selected_connectors cr files))
      as [|r l IH]; [done|].
    by rewrite filter_cons, decide_True, IH by done.
  - intros r.
    rewrite get_selected_filter, list_elem_of_filter, list_elem_of_fmap. split.
    + intros [Hkeep (c & -> & Hc%elem_of_elements)].
      exists c. repeat split; [done|]. intros Hmc. by rewrite Hmc in Hkeep.
    + intros (c & Hc & -> & Hkeep). split.
      * destruct (metadata_changes_only cr); [by apply Hkeep | done].
      * exists c. by rewrite elem_of_elements.
  - intros c. split; [done|]. intros f. simpl.
    unfold get_connector_modified_files. by rewrite elem_of_filter, (comm and).
  - intros r. unfold has_metadata_change. by rewrite bool_decide_eq_true.
Qed.

End SelectionSpec.

(** ** The theorems on the sample registry *)

Import Examples.

Lemma source_a_selected_by_name :
  source_a ∈ selected_connectors_by_name by_name.
Proof.
  unfold selected_connectors_by_name. apply elem_of_filter. split.
  - apply list_elem_of_singleton. reflexivity.
  - apply elem_of_union_l. by apply elem_of_singleton.
Qed.

Lemma C1_by_name_witness :
  selected_connectors by_name ∅ = selected_connectors_by_name by_name.
Proof.
  apply (proj2 (proj2 (proj2
           (C1_selection_is_intersection_of_non_empty_candidates by_name ∅)))
           0%nat).
  - reflexivity.
  - intros E. pose proof source_a_selected_by_name as Hin.
    rewrite E in Hin. by apply not_elem_of_empty in Hin.
  - by apply names_only_others_empty.
Defined.

Lemma C5_metadata_only_witness :
  (get_selected_connectors_with_modified_files by_name_metadata_only changed_files).2
  = filter (λ r, has_metadata_change r = true)
      (with_modified_files changed_files
         <$> elements (selected_connectors by_name_metadata_only changed_files)).
Proof.
  exact (proj1 (C5_metadata_post_filter by_name_metadata_only changed_files) eq_refl).
Defined.

Lemma C3_credentials_witness :
  (should_use_remote_secrets environ_with_credentials None).2 = Ok true
  ∧ (should_use_remote_secrets environ_with_credentials (Some true)).2 = Ok true
  ∧ (should_use_remote_secrets ∅ (Some true)).2 = Raise (UsageError msg_usage)
  ∧ (should_use_remote_secrets ∅ None).2 = Ok false.
Proof.
  destruct (C3_should_use_remote_secrets_table environ_with_credentials)
    as (_ & Hnone & Htrue & _).
  destruct (C3_should_use_remote_secrets_table ∅) as (_ & Hnone' & Htrue' & _).
  rewrite Hnone, Htrue, Hnone', Htrue'. by repeat split.
Defined.

End CommandsSpec.

(** * Properties of [sponsored_products.py] *)

Module SponsoredProductsSpec.
Import SponsoredProducts.

(** ** The request body *)

Lemma V3_body_maxResults self state slice token :
  SponsoredProductsV3_request_body_json self state slice token !! "maxResults"
    = Some (JInt (page_size self)).
Proof.
  unfold SponsoredProductsV3_request_body_json.
  rewrite lookup_insert_ne by done. apply lookup_insert_eq.
Qed.

Lemma V3_body_nextToken self state slice token :
  SponsoredProductsV3_request_body_json self state slice token !! "nextToken"
    = Some token.
Proof. unfold SponsoredProductsV3_request_body_json. apply lookup_insert_eq. Qed.

Lemma V3_body_stateFilter self state slice token :
  SponsoredProductsV3_request_body_json self state slice token !! "stateFilter"
    = if truthy (state_filter self)
      then Some (JDict {["include" := state_filter self]}) else None.
Proof.
  unfold SponsoredProductsV3_request_body_json.
  rewrite !lookup_insert_ne by done.
  destruct (truthy (state_filter self)); [apply lookup_insert_eq | done].
Qed.

(** The body of [SponsoredProductsV3] has no other entry. *)
Lemma V3_body_other self state slice token (key : string) :
  key ≠ "maxResults" → key ≠ "nextToken" → key ≠ "stateFilter" →
  SponsoredProductsV3_request_body_json self state slice token !! key = None.
Proof.
  intros H1 H2 H3. unfold SponsoredProductsV3_request_body_json.
  rewrite !lookup_insert_ne by done.
  destruct (truthy (state_filter self)); [by rewrite lookup_insert_ne|done].
Qed.

Lemma inherits_request_body_json self state slice token :
  stream_class self ≠ SponsoredProductAdGroupBidRecommendations →
  request_body_json self state slice token
    = Ok (SponsoredProductsV3_request_body_json self state slice token).
Proof. unfold request_body_json. by destruct (stream_class self). Qed.

Lemma bid_recommendations_some self state d token adGroupId campaignId :
  d !! "adGroupId" = Some adGroupId → d !! "campaignId" = Some campaignId →
  SponsoredProductAdGroupBidRecommendations_request_body_json self state (Some d) token
    = Ok (bid_recommendations_body adGroupId campaignId).
Proof.
  intros Ha Hc. unfold SponsoredProductAdGroupBidRecommendations_request_body_json.
  simpl. by rewrite Ha, Hc.
Qed.

Lemma bid_recommendations_returns self state slice token :
  returns (SponsoredProductAdGroupBidRecommendations_request_body_json
             self state slice token)
  ↔ ∃ d, slice = Some d ∧ is_Some (d !! "adGroupId") ∧ is_Some (d !! "campaignId").
Proof.
  unfold returns, SponsoredProductAdGroupBidRecommendations_request_body_json.
  destruct slice as [d|]; simpl.
  - destruct (d !! "adGroupId") as [a|] eqn:Ha; simpl.
    + destruct (d !! "campaignId") as [c|] eqn:Hc; simpl.
      * split; [intros _; exists d; rewrite Ha, Hc; eauto | eauto].
      * split; [by intros [? [=]] |].
        intros (d' & [= <-] & _ & [? Hc']). congruence.
    + split; [by intros [? [=]] |].
      intros (d' & [= <-] & [? Ha'] & _). congruence.
  - split; [by intros [? [=]] | by intros (? & [=] & _)].
Qed.

(** C7, amended. Every stream other than the bid recommendations builds a
    body with [maxResults] (the page size), [nextToken] (the continuation
    token) and, exactly when the configured state filter is truthy,
    [stateFilter]; the body has no other entry. *)
Theorem C7_request_body_of_inheriting_streams
    (self : Stream) (state : gmap string JSON) (slice : option (gmap string JSON))
    (token : JSON) :
  stream_class self ≠ SponsoredProductAdGroupBidRecommendations →
  ∃ body, request_body_json self state slice token = Ok body
    ∧ body !! "maxResults" = Some (JInt (page_size self))
    ∧ body !! "nextToken" = Some token
    ∧ (truthy (state_filter self) = true →
         body !! "stateFilter" = Some (JDict {["include" := state_filter self]}))
    ∧ (truthy (state_filter self) = false → body !! "stateFilter" = None)
    ∧ dom body ⊆ {["maxResults"; "nextToken"; "stateFilter"]}.
Proof.
  intros Hcls. eexists. split; [by apply inherits_request_body_json|].
  rewrite V3_body_maxResults, V3_body_nextToken, V3_body_stateFilter.
  repeat split.
  - by intros ->.
  - by intros ->.
  - intros key [v Hv]%elem_of_dom.
    destruct (decide (key = "maxResults")) as [->|H1].
    { apply elem_of_union_l, elem_of_union_l. by apply elem_of_singleton. }
    destruct (decide (key = "nextToken")) as [->|H2].
    { apply elem_of_union_l, elem_of_union_r. by apply elem_of_singleton. }
    destruct (decide (key = "stateFilter")) as [->|H3].
    { apply elem_of_union_r. by apply elem_of_singleton. }
    by rewrite V3_body_other in Hv.
Qed.

(** C9, amended. The method of [SponsoredProductsV3] puts [nextToken] in the
    body of the first page too, mapped to [None], and [maxResults] in the body
    of every page; every stream other than the bid recommendations sends that
    body. *)
Theorem C9_first_page_body_of_inheriting_streams
    (self : Stream) (state : gmap string JSON) (slice : option (gmap string JSON)) :
  SponsoredProductsV3_request_body_json self state slice JNull !! "nextToken"
    = Some JNull
  ∧ (∀ token,
       SponsoredProductsV3_request_body_json self state slice token !! "maxResults"
         = Some (JInt (page_size self)))
  ∧ (stream_class self ≠ SponsoredProductAdGroupBidRecommendations →
       ∀ token,
         request_body_json self state slice token
           = Ok (SponsoredProductsV3_request_body_json self state slice token)).
Proof.
  split; [apply V3_body_nextToken|].
  split; [intros token; apply V3_body_maxResults|].
  intros Hcls token. by apply inherits_request_body_json.
Qed.

(** C10. The body of the bid recommendations depends on the slice only, and
    there only on [adGroupId] and [campaignId]: neither the stream object
    (state filter, page size), nor the stream state, nor the continuation
    token changes it.  It is built exactly when the slice has both
    identifiers, and then holds the fixed targeting expressions and
    recommendation type and none of [maxResults], [nextToken],
    [stateFilter]. *)
Theorem C10_bid_recommendations_body_depends_on_slice_ids
    (self self' : Stream) (state state' : gmap string JSON) (token token' : JSON) :
  (∀ slice,
     SponsoredProductAdGroupBidRecommendations_request_body_json self state slice token
     = SponsoredProductAdGroupBidRecommendations_request_body_json
         self' state' slice token')
  ∧ (∀ d d' : gmap string JSON,
       d !! "adGroupId" = d' !! "adGroupId" → d !! "campaignId" = d' !! "campaignId" →
       SponsoredProductAdGroupBidRecommendations_request_body_json
         self state (Some d) token
       = SponsoredProductAdGroupBidRecommendations_request_body_json
           self' state' (Some d') token')
  ∧ (∀ slice,
       returns (SponsoredProductAdGroupBidRecommendations_request_body_json
                  self state slice token)
       ↔ ∃ d, slice = Some d ∧ is_Some (d !! "adGroupId") ∧ is_Some (d !! "campaignId"))
  ∧ (∀ slice body,
       SponsoredProductAdGroupBidRecommendations_request_body_json
         self state slice token = Ok body →
       body !! "targetingExpressions"
         = Some (JList [JDict (<["value" := JString "hello"]>
                                 {["type" := JString "KEYWORD_BROAD_MATCH"]})])
       ∧ body !! "recommendationType" = Some (JString "BIDS_FOR_EXISTING_AD_GROUP")
       ∧ body !! "adGroupId" = (slice ≫= (.!! "adGroupId"))
       ∧ body !! "campaignId" = (slice ≫= (.!! "campaignId"))
       ∧ body !! "maxResults" = None
       ∧ body !! "nextToken" = None
       ∧ body !! "stateFilter" = None)
  ∧ (stream_class self = SponsoredProductAdGroupBidRecommendations →
       ∀ slice,
         request_body_json self state slice token
         = SponsoredProductAdGroupBidRecommendations_request_body_json
             self state slice token).
Proof.
  split; [done|]. split.
  { intros d d' Ha Hc.
    unfold SponsoredProductAdGroupBidRecommendations_request_body_json. simpl.
    by rewrite Ha, Hc. }
  split; [intros slice; apply bid_recommendations_returns|]. split.
  - intros slice body Hbody.
    assert (returns (SponsoredProductAdGroupBidRecommendations_request_body_json
                       self state slice token)) as Hret by by exists body.
    apply bid_recommendations_returns in Hret as (d & -> & [a Ha] & [c Hc]).
    rewrite (bid_recommendations_some _ _ _ _ a c) in Hbody by done.
    injection Hbody as <-. simpl. rewrite Ha, Hc.
    unfold bid_recommendations_body. by simplify_map_eq.
  - intros Hcls slice. unfold request_body_json. by rewrite Hcls.
Qed.

(** ** The response of the streams sliced by ad group *)

Lemma raise_for_status_error response :
  400 ≤ status_code response < 600 →
  raise_for_status response = Some (HTTPError (status_code response)).
Proof.
  intros [Hlo Hhi]. unfold raise_for_status.
  apply Z.leb_le in Hlo. apply Z.ltb_lt in Hhi. by rewrite Hlo, Hhi.
Qed.

Lemma raise_for_status_quiet response :
  ¬ (400 ≤ status_code response < 600) → raise_for_status response = None.
Proof.
  intros Hout. unfold raise_for_status.
  destruct (400 <=? status_code response) eqn:Hlo; [|done].
  destruct (status_code response <? 600) eqn:Hhi; [|done].
  apply Z.leb_le in Hlo. apply Z.ltb_lt in Hhi. lia.
Qed.

Lemma parse_response_other_status response resp :
  json response = Some resp → ¬ named_status (status_code response) →
  parse_response response
    = {| yielded := []; logged := []; raised := raise_for_status response |}.
Proof.
  intros Hjson Hother. unfold parse_response. rewrite Hjson.
  unfold named_status, OK, BAD_REQUEST, NOT_FOUND, UNPROCESSABLE_ENTITY in *.
  repeat match goal with
         | |- context [?a =? ?b] =>
             destruct (Z.eqb_spec a b); [exfalso; tauto|]
         end.
  done.
Qed.

(** C2, amended. For a response whose body is valid JSON: status 200 gives
    exactly one record, the parsed body, and no exception; 400 and 404 give
    no record, a warning and no exception when the request has the scope
    header; 422 gives no record, a warning and no exception when the body of
    the request is a JSON object with [adGroupId]; every other status gives
    no record, and an exception exactly when it is a 4xx or 5xx status. *)
Theorem C2_parse_response_by_status (response : Response) (resp : JSON) :
  json response = Some resp →
  (status_code response = OK →
     parse_response response = {| yielded := [resp]; logged := []; raised := None |})
  ∧ (∀ scope, headers (request response) !! scope_header = Some scope →
       (status_code response = BAD_REQUEST →
          parse_response response
            = {| yielded := [];
                 logged := [SkipUnsupported (url (request response)) scope
                                            (text response)];
                 raised := None |})
       ∧ (status_code response = NOT_FOUND →
            parse_response response
              = {| yielded := [];
                   logged := [SkipNoBid (url (request response)) scope
                                        (text response)];
                   raised := None |}))
  ∧ (∀ d adGroupId,
       body (request response) = Ok (JDict d) → d !! "adGroupId" = Some adGroupId →
       status_code response = UNPROCESSABLE_ENTITY →
       parse_response response
         = {| yielded := [];
              logged := [SkipNoAsins adGroupId (url (request response))];
              raised := None |})
  ∧ (¬ named_status (status_code response) →
       yielded (parse_response response) = []
       ∧ logged (parse_response response) = []
       ∧ (400 ≤ status_code response < 600 →
            raised (parse_response response)
              = Some (HTTPError (status_code response)))
       ∧ (¬ (400 ≤ status_code response < 600) →
            raised (parse_response response) = None)).
Proof.
  intros Hjson. split; [|split; [|split]].
  - intros Hst. unfold parse_response, raise_for_status. by rewrite Hjson, Hst.
  - intros scope Hscope. split; intros Hst; unfold parse_response, scope_of;
      by rewrite Hjson, Hst, Hscope.
  - intros d adGroupId Hbody Hid Hst. unfold parse_response.
    rewrite Hjson, Hst, Hbody. simpl. by rewrite Hid.
  - intros Hother. rewrite (parse_response_other_status _ resp) by done. simpl.
    split; [done|]. split; [done|].
    split; [apply raise_for_status_error | apply raise_for_status_quiet].
Qed.

(** C8. The body is decoded before the status is looked at: a response whose
    body is not valid JSON raises the decode error and yields nothing,
    whatever its status, 400, 404 and 422 included. *)
Theorem C8_parse_response_decodes_first (response : Response) :
  json response = None →
  parse_response response
    = {| yielded := []; logged := []; raised := Some JSONDecodeError |}.
Proof. intros Hjson. unfold parse_response. by rewrite Hjson. Qed.

(** ** Pagination *)

Lemma next_page_token_of_dict response (d : gmap string JSON) :
  ok response = true → json response = Some (JDict d) →
  next_page_token (Some response) = Ok (default JNull (d !! "nextToken")).
Proof. intros Hok Hjson. simpl. by rewrite Hok, Hjson. Qed.

Lemma read_pages_stop response later :
  next_page_token (Some response) = Ok JNull →
  read_pages (response :: later) = ([response], Complete).
Proof. intros Htok. cbn [read_pages]. by rewrite Htok. Qed.

Lemma read_pages_continue response later token :
  next_page_token (Some response) = Ok token → token ≠ JNull →
  read_pages (response :: later)
    = (response :: (read_pages later).1, (read_pages later).2).
Proof.
  intros Htok Hne. cbn [read_pages]. rewrite Htok.
  destruct (read_pages later) as [pages ending].
  by destruct token.
Qed.

(** C6. [next_page_token] is [None] for an absent or falsy response, and
    otherwise the [nextToken] entry of the JSON object in the body, [None]
    when there is no such entry.  The pagination loop stops at the first
    response without a token and goes on after any other: of responses whose
    first has a token and whose second has none, exactly two pages are
    read. *)
Theorem C6_pagination_stops_without_token :
  next_page_token None = Ok JNull
  ∧ (∀ response, ok response = false → next_page_token (Some response) = Ok JNull)
  ∧ (∀ response (d : gmap string JSON),
       ok response = true → json response = Some (JDict d) →
       (∀ token, d !! "nextToken" = Some token →
                 next_page_token (Some response) = Ok token)
       ∧ (d !! "nextToken" = None → next_page_token (Some response) = Ok JNull))
  ∧ (∀ response later,
       next_page_token (Some response) = Ok JNull →
       read_pages (response :: later) = ([response], Complete))
  ∧ (∀ response later token,
       next_page_token (Some response) = Ok token → token ≠ JNull →
       read_pages (response :: later)
         = (response :: (read_pages later).1, (read_pages later).2))
  ∧ (∀ first second later (d1 d2 : gmap string JSON) token,
       ok first = true → json first = Some (JDict d1) →
       d1 !! "nextToken" = Some token → token ≠ JNull →
       ok second = true → json second = Some (JDict d2) →
       d2 !! "nextToken" = None →
       read_pages (first :: second :: later) = ([first; second], Complete)).
Proof.
  split; [done|]. split.
  { intros response Hok. simpl. by rewrite Hok. }
  split.
  { intros response d Hok Hjson. split.
    - intros token Htok. rewrite (next_page_token_of_dict _ d) by done.
      by rewrite Htok.
    - intros Htok. rewrite (next_page_token_of_dict _ d) by done.
      by rewrite Htok. }
  split; [apply read_pages_stop|]. split; [apply read_pages_continue|].
  intros first second later d1 d2 token Hok1 Hj1 Ht1 Hne Hok2 Hj2 Ht2.
  rewrite (read_pages_continue first _ token);
    [|by rewrite (next_page_token_of_dict _ d1), Ht1|done].
  rewrite (read_pages_stop second); [done|].
  by rewrite (next_page_token_of_dict _ d2), Ht2.
Qed.

(** ** The theorems on the sample streams and responses *)

Import Examples.

Lemma ad_group_ids :
  ad_group !! "adGroupId" = Some (JInt 1) ∧ ad_group !! "campaignId" = Some (JInt 2)
  ∧ ad_group_renamed !! "adGroupId" = Some (JInt 1)
  ∧ ad_group_renamed !! "campaignId" = Some (JInt 2).
Proof. unfold ad_group, ad_group_renamed. by simplify_map_eq. Qed.

Lemma sample_bid_body token :
  request_body_json bid_recommendations ∅ (Some ad_group) token
    = Ok (bid_recommendations_body (JInt 1) (JInt 2)).
Proof.
  destruct ad_group_ids as (Ha & Hc & _).
  unfold request_body_json. cbn [stream_class bid_recommendations init].
  by apply bid_recommendations_some.
Qed.

Lemma sample_bid_body_entries :
  bid_recommendations_body (JInt 1) (JInt 2) !! "maxResults" = None
  ∧ bid_recommendations_body (JInt 1) (JInt 2) !! "nextToken" = None
  ∧ bid_recommendations_body (JInt 1) (JInt 2) !! "stateFilter" = None.
Proof. unfold bid_recommendations_body. by simplify_map_eq. Qed.

Lemma sample_state_filter :
  truthy (state_filter bid_recommendations) = true.
Proof.
  unfold bid_recommendations, init. cbn [state_filter]. unfold default.
  cbn [from_option id]. by rewrite lookup_singleton_eq.
Qed.

(** C2 fails as stated: a 404 whose body is not JSON raises the decode error;
    a 304 is neither a 2xx nor raised on; a 422 answering a request whose
    body has no [adGroupId] raises a [KeyError] while the warning is
    formatted. *)
Lemma C2_counterexample :
  (status_code not_json_404 = NOT_FOUND
   ∧ parse_response not_json_404
       = {| yielded := []; logged := []; raised := Some JSONDecodeError |})
  ∧ (status_code not_modified_304 = 304
     ∧ parse_response not_modified_304
         = {| yielded := []; logged := []; raised := None |})
  ∧ (status_code no_asins_422 = UNPROCESSABLE_ENTITY
     ∧ parse_response no_asins_422
         = {| yielded := []; logged := []; raised := Some (KeyError "adGroupId") |})
  ∧ ¬ (∀ response : Response,
         (status_code response = OK →
            ∃ record, yielded (parse_response response) = [record]
                      ∧ raised (parse_response response) = None)
         ∧ (status_code response = BAD_REQUEST ∨ status_code response = NOT_FOUND
            ∨ status_code response = UNPROCESSABLE_ENTITY →
              yielded (parse_response response) = []
              ∧ raised (parse_response response) = None)
         ∧ (¬ named_status (status_code response) →
            ¬ (200 ≤ status_code response < 300) →
              yielded (parse_response response) = []
              ∧ raised (parse_response response) ≠ None)).
Proof.
  split; [by split|]. split; [by split|]. split.
  - split; [done|]. unfold parse_response, no_asins_422, keywords_request.
    cbn [json status_code request body url].
    change (422 =? OK) with false. change (422 =? BAD_REQUEST) with false.
    change (422 =? UNPROCESSABLE_ENTITY) with true.
    cbn [mbind Result_bind subscript].
    by rewrite V3_body_other.
  - intros Hclaim. destruct (Hclaim not_json_404) as (_ & H404 & _).
    destruct H404 as [_ Hraised]; [by right; left|]. discriminate Hraised.
Qed.

Lemma C2_ok_witness :
  json recommendations_200 = Some (JDict ∅)
  ∧ parse_response recommendations_200
      = {| yielded := [JDict ∅]; logged := []; raised := None |}.
Proof.
  split; [reflexivity|].
  exact (proj1 (C2_parse_response_by_status recommendations_200 (JDict ∅) eq_refl)
               eq_refl).
Defined.

Lemma C8_not_json_witness :
  json not_json_404 = None
  ∧ parse_response not_json_404
      = {| yielded := []; logged := []; raised := Some JSONDecodeError |}.
Proof.
  split; [reflexivity|].
  exact (C8_parse_response_decodes_first not_json_404 eq_refl).
Defined.

Lemma C6_two_pages_witness :
  read_pages [page_with_token; page_without_token; page_with_token]
    = ([page_with_token; page_without_token], Complete).
Proof.
  apply (proj2 (proj2 (proj2 (proj2 (proj2 C6_pagination_stops_without_token))))
           page_with_token page_without_token [page_with_token]
           (<["nextToken" := JString "A"]> {["campaigns" := JList []]})
           {["campaigns" := JList []]} (JString "A")).
  - reflexivity.
  - reflexivity.
  - apply lookup_insert_eq.
  - discriminate.
  - reflexivity.
  - reflexivity.
  - by apply lookup_singleton_ne.
Defined.

(** C7 fails as stated: the bid recommendations build a body with none of the
    three entries, though a state filter is configured and a continuation
    token is passed. *)
Lemma C7_counterexample :
  request_body_json bid_recommendations ∅ (Some ad_group) (JString "A")
    = Ok (bid_recommendations_body (JInt 1) (JInt 2))
  ∧ truthy (state_filter bid_recommendations) = true
  ∧ bid_recommendations_body (JInt 1) (JInt 2) !! "maxResults" = None
  ∧ bid_recommendations_body (JInt 1) (JInt 2) !! "nextToken" = None
  ∧ bid_recommendations_body (JInt 1) (JInt 2) !! "stateFilter" = None
  ∧ ¬ (∀ (self : Stream) (state : gmap string JSON)
         (slice : option (gmap string JSON)) (token : JSON) (body : gmap string JSON),
         request_body_json self state slice token = Ok body →
         is_Some (body !! "maxResults") ∧ is_Some (body !! "nextToken")
         ∧ (is_Some (body !! "stateFilter") ↔ truthy (state_filter self) = true)).
Proof.
  destruct sample_bid_body_entries as (Hmax & Htok & Hfilter).
  split; [apply sample_bid_body|]. split; [apply sample_state_filter|].
  split; [done|]. split; [done|]. split; [done|].
  intros Hclaim.
  destruct (Hclaim _ _ _ _ _ (sample_bid_body (JString "A"))) as ([v Hv] & _).
  rewrite Hmax in Hv. discriminate Hv.
Qed.

Lemma C7_campaigns_witness :
  stream_class campaigns ≠ SponsoredProductAdGroupBidRecommendations
  ∧ ∃ body, request_body_json campaigns ∅ None (JString "A") = Ok body
      ∧ body !! "maxResults" = Some (JInt (page_size campaigns))
      ∧ body !! "nextToken" = Some (JString "A")
      ∧ (truthy (state_filter campaigns) = true →
           body !! "stateFilter" = Some (JDict {["include" := state_filter campaigns]}))
      ∧ (truthy (state_filter campaigns) = false → body !! "stateFilter" = None)
      ∧ dom body ⊆ {["maxResults"; "nextToken"; "stateFilter"]}.
Proof.
  assert (stream_class campaigns ≠ SponsoredProductAdGroupBidRecommendations)
    as Hcls by discriminate.
  split; [exact Hcls|].
  exact (C7_request_body_of_inheriting_streams campaigns ∅ None (JString "A") Hcls).
Defined.

(** C9 fails as stated: the bid recommendations are a [SponsoredProductsV3]
    stream, and the body of their first page has neither [nextToken] nor
    [maxResults]. *)
Lemma C9_counterexample :
  with_slices (stream_class bid_recommendations) = true
  ∧ request_body_json bid_recommendations ∅ (Some ad_group) JNull
      = Ok (bid_recommendations_body (JInt 1) (JInt 2))
  ∧ bid_recommendations_body (JInt 1) (JInt 2) !! "nextToken" = None
  ∧ bid_recommendations_body (JInt 1) (JInt 2) !! "maxResults" = None
  ∧ ¬ (∀ (self : Stream) (state : gmap string JSON)
         (slice : option (gmap string JSON)) (body : gmap string JSON),
         request_body_json self state slice JNull = Ok body →
         body !! "nextToken" = Some JNull ∧ is_Some (body !! "maxResults")).
Proof.
  destruct sample_bid_body_entries as (Hmax & Htok & _).
  split; [done|]. split; [apply sample_bid_body|].
  split; [done|]. split; [done|].
  intros Hclaim.
  destruct (Hclaim _ _ _ _ (sample_bid_body JNull)) as [Hnext _].
  rewrite Htok in Hnext. discriminate Hnext.
Qed.

Lemma C9_campaigns_witness :
  request_body_json campaigns ∅ None JNull
    = Ok (SponsoredProductsV3_request_body_json campaigns ∅ None JNull).
Proof.
  apply (proj2 (proj2 (C9_first_page_body_of_inheriting_streams campaigns ∅ None))).
  discriminate.
Defined.

Lemma C10_same_ids_witness :
  SponsoredProductAdGroupBidRecommendations_request_body_json
    bid_recommendations ∅ (Some ad_group) JNull
  = SponsoredProductAdGroupBidRecommendations_request_body_json
      campaigns {["cursor" := JInt 7]} (Some ad_group_renamed) (JString "A").
Proof.
  destruct ad_group_ids as (Ha & Hc & Ha' & Hc').
  apply (proj1 (proj2 (C10_bid_recommendations_body_depends_on_slice_ids
                         bid_recommendations campaigns ∅ {["cursor" := JInt 7]}
                         JNull (JString "A")))).
  - by rewrite Ha, Ha'.
  - by rewrite Hc, Hc'.
Defined.

End SponsoredProductsSpec.

(** * Further properties of [commands.py] *)

Module CommandsExtra.
Import Commands CommandsSpec.

(** ** Environment *)

Lemma check_required_env_vars_ok environ required :
  check_required_env_vars environ required = Ok tt
  ↔ ∀ v, v ∈ required → is_Some (environ !! v).
Proof.
  induction required as [|v later IH]; simpl.
  - split; [|done]. intros _ v Hv. by apply elem_of_nil in Hv.
  - unfold getenv. destruct (environ !! v) as [value|] eqn:Hv.
    + rewrite IH. split.
      * intros Hall u [->|Hu]%elem_of_cons; [by rewrite Hv | by apply Hall].
      * intros Hall u Hu. apply Hall. by right.
    + split; [done|]. intros Hall.
      destruct (Hall v) as [value Hvalue]; [left | congruence].
Qed.

Lemma check_required_env_vars_raise environ required e :
  check_required_env_vars environ required = Raise e →
  ∃ before v after,
    required = before ++ v :: after
    ∧ (∀ u, u ∈ before → is_Some (environ !! u))
    ∧ environ !! v = None
    ∧ e = UsageError (msg_required_env_var v).
Proof.
  induction required as [|v later IH]; simpl; [done|].
  unfold getenv. destruct (environ !! v) as [value|] eqn:Hv.
  - intros (before & w & after & -> & Hbefore & Hw & ->)%IH.
    exists (v :: before), w, after. repeat split; [|done].
    intros u [->|Hu]%elem_of_cons; [by rewrite Hv | by apply Hbefore].
  - intros [= <-]. exists [], v, later. repeat split; [|done].
    intros u Hu. by apply elem_of_nil in Hu.
Qed.

(** X1. Outside local mode [validate_environment] returns exactly when each
    of the five required variables is set; a variable set to the empty string
    counts as set. *)
Theorem validate_environment_ci_returns
    (git_is_dir : bool) (environ : gmap string string) :
  validate_environment git_is_dir environ false = Ok tt
  ↔ ∀ v, v ∈ required_env_vars_for_ci → is_Some (environ !! v).
Proof. unfold validate_environment. apply check_required_env_vars_ok. Qed.

(** X2. When [validate_environment] raises outside local mode, the usage error
    names the first required variable, in the declared order, that is not
    set. *)
Theorem validate_environment_names_first_missing
    (git_is_dir : bool) (environ : gmap string string) (e : Exn) :
  validate_environment git_is_dir environ false = Raise e →
  ∃ before v after,
    required_env_vars_for_ci = before ++ v :: after
    ∧ (∀ u, u ∈ before → is_Some (environ !! u))
    ∧ environ !! v = None
    ∧ e = UsageError (msg_required_env_var v).
Proof. unfold validate_environment. apply check_required_env_vars_raise. Qed.

(** X3. An environment accepted for CI has the credentials variable, but
    maybe empty: then the secrets policy still finds no credentials, returns
    local mode for an unset flag and raises for [--use-remote-secrets]. *)
Theorem validated_environment_and_secrets
    (git_is_dir : bool) (environ : gmap string string) :
  validate_environment git_is_dir environ false = Ok tt →
  ∃ value, environ !! "GCP_GSM_CREDENTIALS" = Some value
    ∧ (value ≠ "" →
         (should_use_remote_secrets environ None).2 = Ok true
         ∧ (should_use_remote_secrets environ (Some true)).2 = Ok true)
    ∧ (value = "" →
         (should_use_remote_secrets environ None).2 = Ok false
         ∧ (should_use_remote_secrets environ (Some true)).2
             = Raise (UsageError msg_usage)).
Proof.
  unfold validate_environment. intros Hok.
  pose proof (proj1 (check_required_env_vars_ok _ _) Hok) as Hall.
  destruct (Hall "GCP_GSM_CREDENTIALS") as [value Hvalue]; [left|].
  exists value. split; [done|].
  unfold should_use_remote_secrets, getenv. rewrite Hvalue. simpl. split.
  - intros Hne. by rewrite bool_decide_eq_false_2.
  - intros ->. done.
Qed.

(** X4. [should_use_remote_secrets] never returns true without credentials;
    it raises exactly for the flag true without credentials; it logs one
    record when it returns and none when it raises. *)
Theorem should_use_remote_secrets_outcomes
    (environ : gmap string string) (flag : option bool) :
  ((should_use_remote_secrets environ flag).2 = Ok true →
     env_is_set (getenv environ "GCP_GSM_CREDENTIALS") = true ∧ flag ≠ Some false)
  ∧ (∀ e, (should_use_remote_secrets environ flag).2 = Raise e
          ↔ flag = Some true
            ∧ env_is_set (getenv environ "GCP_GSM_CREDENTIALS") = false
            ∧ e = UsageError msg_usage)
  ∧ length (should_use_remote_secrets environ flag).1
      = match (should_use_remote_secrets environ flag).2 with
        | Ok _ => 1%nat
        | Raise _ => 0%nat
        end.
Proof.
  unfold should_use_remote_secrets.
  destruct flag as [[|]|]; destruct (env_is_set _); simpl.
  all: split; [first [by intros [=] | by intros _; split] | split; [|done]].
  all: intros e; split;
    first [ by intros [=]
          | by intros [= <-]
          | by intros (? & ? & ->)
          | intros (? & ? & ?); congruence ].
Qed.

(** ** Selection and the command group *)

Section SelectionExtra.

Context `{Registry}.

(** The group asks for the diff exactly when the selection reads it. *)
Lemma diff_asked_iff_effective_modified cr :
  modified cr || metadata_changes_only cr = effective_modified cr.
Proof.
  unfold effective_modified, modified_override.
  by destruct (modified cr), (metadata_changes_only cr).
Qed.

Lemma no_modified_files_under connector :
  get_connector_modified_files connector ∅ = ∅.
Proof.
  unfold get_connector_modified_files. apply set_eq. intros f.
  rewrite elem_of_filter. split; [by intros [_ ?] | by intros ?%not_elem_of_empty].
Qed.

(** Without the modified criterion the files are not read to select. *)
Lemma selected_without_modified cr files files' :
  effective_modified cr = false →
  selected_connectors cr files = selected_connectors cr files'.
Proof.
  intros Hm. unfold selected_connectors, non_empty_connector_sets,
    candidate_connector_sets, selected_modified_connectors.
  by rewrite Hm.
Qed.

(** X5. Once the environment is validated, the group [connectors] selects on
    the diff exactly when the modified criterion is in force (one of
    [--modified], [--metadata-changes-only]); otherwise the diff is not read
    and every connector returned has no modified file.  A failed validation
    is raised before anything is selected. *)
Theorem connectors_reads_diff_when_modified
    (technical_name_of : ConnectorWithModifiedFiles → string)
    (git_is_dir : bool) (environ : gmap string string) (diff : list Path)
    (is_local : bool) (cr : Criteria) :
  (∀ e, validate_environment git_is_dir environ is_local = Raise e →
        connectors technical_name_of git_is_dir environ diff is_local cr = Raise e)
  ∧ (validate_environment git_is_dir environ is_local = Ok tt →
       (∃ logs,
          connectors technical_name_of git_is_dir environ diff is_local cr
          = Ok (logs,
                (get_selected_connectors_with_modified_files cr
                   (if effective_modified cr then list_to_set diff else ∅)).2))
       ∧ (effective_modified cr = false →
            (∀ diff',
               connectors technical_name_of git_is_dir environ diff' is_local cr
               = connectors technical_name_of git_is_dir environ diff is_local cr)
            ∧ ∀ logs selected r,
                connectors technical_name_of git_is_dir environ diff is_local cr
                  = Ok (logs, selected) →
                r ∈ selected → modified_files r = ∅)).
Proof.
  unfold connectors. rewrite diff_asked_iff_effective_modified. split.
  - by intros e ->.
  - intros ->. simpl. split.
    + destruct (effective_modified cr); eexists; reflexivity.
    + intros Hm. rewrite Hm. split; [done|].
      intros logs selected r [= _ <-] Hr.
      rewrite foldl_append_selected, app_nil_l in Hr.
      apply list_elem_of_filter in Hr as [_ Hr].
      apply list_elem_of_fmap in Hr as (c & -> & _).
      apply no_modified_files_under.
Qed.

(** X6. A names, support levels or languages criterion that matches no
    connector of the registry is ignored: the selection is the one made
    without it. *)
Theorem unmatched_criterion_is_ignored (cr : Criteria) (files : gset Path) :
  (selected_connectors_by_name cr = ∅ →
     selected_connectors cr files
     = selected_connectors
         {| selected_names := [];
            selected_support_levels := selected_support_levels cr;
            selected_languages := selected_languages cr;
            modified := modified cr;
            metadata_changes_only := metadata_changes_only cr;
            with_changelog_entry_files := with_changelog_entry_files cr;
            metadata_query := metadata_query cr;
            enable_dependency_scanning := enable_dependency_scanning cr |} files)
  ∧ (selected_connectors_by_support_level cr = ∅ →
       selected_connectors cr files
       = selected_connectors
           {| selected_names := selected_names cr;
              selected_support_levels := [];
              selected_languages := selected_languages cr;
              modified := modified cr;
              metadata_changes_only := metadata_changes_only cr;
              with_changelog_entry_files := with_changelog_entry_files cr;
              metadata_query := metadata_query cr;
              enable_dependency_scanning := enable_dependency_scanning cr |} files)
  ∧ (selected_connectors_by_language cr = ∅ →
       selected_connectors cr files
       = selected_connectors
           {| selected_names := selected_names cr;
              selected_support_levels := selected_support_levels cr;
              selected_languages := [];
              modified := modified cr;
              metadata_changes_only := metadata_changes_only cr;
              with_changelog_entry_files := with_changelog_entry_files cr;
              metadata_query := metadata_query cr;
              enable_dependency_scanning := enable_dependency_scanning cr |} files).
Proof.
  split; [|split]; intros Hnone;
    unfold selected_connectors, non_empty_connector_sets, candidate_connector_sets;
    rewrite Hnone;
    unfold selected_connectors_by_name, selected_connectors_by_support_level,
      selected_connectors_by_language; cbn [selected_names selected_support_levels
      selected_languages]; by rewrite filter_in_nil.
Qed.

Lemma candidate_within_registry cr files (s : gset Connector) :
  get_modified_connectors files ALL_CONNECTORS (enable_dependency_scanning cr)
    ⊆ ALL_CONNECTORS →
  s ∈ candidate_connector_sets cr files → s ⊆ ALL_CONNECTORS.
Proof.
  intros Hmodified. unfold candidate_connector_sets.
  rewrite !elem_of_cons, elem_of_nil.
  intros [->|[->|[->|[->|[->|[->|[]]]]]]] c.
  - unfold selected_connectors_by_name. rewrite elem_of_filter. tauto.
  - unfold selected_connectors_by_support_level. rewrite elem_of_filter. tauto.
  - unfold selected_connectors_by_language. rewrite elem_of_filter. tauto.
  - unfold selected_connectors_by_query. case_bool_decide.
    + by intros ?%not_elem_of_empty.
    + rewrite elem_of_filter. tauto.
  - unfold selected_modified_connectors. destruct (effective_modified cr).
    + apply Hmodified.
    + by intros ?%not_elem_of_empty.
  - unfold selected_connectors_by_changelog_entry_files.
    destruct (with_changelog_entry_files cr).
    + rewrite elem_of_filter. tauto.
    + by intros ?%not_elem_of_empty.
Qed.

(** X7. When the modified-file resolver returns connectors of the registry
    only, so does the selection: no criterion brings in a connector that is
    not in [ALL_CONNECTORS]. *)
Theorem selected_within_registry (cr : Criteria) (files : gset Path) :
  get_modified_connectors files ALL_CONNECTORS (enable_dependency_scanning cr)
    ⊆ ALL_CONNECTORS →
  selected_connectors cr files ⊆ ALL_CONNECTORS.
Proof.
  intros Hmodified c [Hne Hall]%elem_of_selected.
  destruct (non_empty_connector_sets cr files) as [|s rest] eqn:E; [done|].
  assert (s ∈ non_empty_connector_sets cr files) as Hs by (rewrite E; left).
  apply elem_of_non_empty in Hs as [_ Hs].
  apply (candidate_within_registry cr files s); [done..|].
  apply Hall. left.
Qed.


(** X9. With [metadata_changes_only] and no modified file the list returned
    is empty, whatever the other criteria select. *)
Theorem metadata_changes_only_without_files (cr : Criteria) :
  metadata_changes_only cr = true →
  (get_selected_connectors_with_modified_files cr ∅).2 = [].
Proof.
  intros Hmc. rewrite get_selected_filter, Hmc. simpl.
  induction (elements (selected_connectors cr ∅)) as [|c l IH]; [done|].
  rewrite fmap_cons, filter_cons, decide_False; [done|].
  unfold has_metadata_change, with_modified_files. simpl.
  rewrite no_modified_files_under, bool_decide_eq_false_2; [done|].
  apply not_elem_of_empty.
Qed.

End SelectionExtra.

(** ** On the sample registry and environments *)

Import Examples.

Lemma validate_environment_names_first_missing_witness :
  validate_environment true environ_credentials_only false
    = Raise (UsageError (msg_required_env_var "CI_REPORT_BUCKET_NAME"))
  ∧ ∃ before v after,
      required_env_vars_for_ci = before ++ v :: after
      ∧ (∀ u, u ∈ before → is_Some (environ_credentials_only !! u))
      ∧ environ_credentials_only !! v = None
      ∧ UsageError (msg_required_env_var "CI_REPORT_BUCKET_NAME")
          = UsageError (msg_required_env_var v).
Proof.
  split; [reflexivity|].
  apply (validate_environment_names_first_missing true environ_credentials_only).
  reflexivity.
Defined.

Lemma validated_environment_and_secrets_witness :
  validate_environment false ci_environ_empty_credentials false = Ok tt
  ∧ (should_use_remote_secrets ci_environ_empty_credentials (Some true)).2
      = Raise (UsageError msg_usage).
Proof.
  split; [reflexivity|].
  destruct (validated_environment_and_secrets false ci_environ_empty_credentials
              eq_refl) as (value & Hvalue & _ & Hempty).
  apply Hempty. by injection Hvalue as <-.
Defined.

Lemma connectors_reads_diff_when_modified_witness :
  ∃ logs,
    connectors (λ _, "source-a") true ∅ [["docs"; "index.md"]] true by_name
    = Ok (logs, (get_selected_connectors_with_modified_files by_name ∅).2).
Proof.
  exact (proj1 (proj2 (connectors_reads_diff_when_modified
                         (λ _, "source-a") true ∅ [["docs"; "index.md"]] true
                         by_name) eq_refl)).
Defined.

Lemma unknown_name_selects_nothing :
  selected_connectors_by_name by_unknown_name_and_language = ∅.
Proof.
  apply set_eq. intros c. unfold selected_connectors_by_name.
  rewrite elem_of_filter. split; [|by intros ?%not_elem_of_empty].
  intros [Hname Hc]. exfalso. revert Hname.
  apply elem_of_union in Hc as [->%elem_of_singleton| ->%elem_of_singleton];
    cbn [technical_name source_a source_b selected_names
           by_unknown_name_and_language];
    by intros [=]%list_elem_of_singleton.
Qed.

Lemma unmatched_criterion_is_ignored_witness :
  selected_connectors by_unknown_name_and_language ∅
  = selected_connectors
      {| selected_names := []; selected_support_levels := [];
         selected_languages := ["python"]; modified := false;
         metadata_changes_only := false; with_changelog_entry_files := false;
         metadata_query := ""; enable_dependency_scanning := false |} ∅.
Proof.
  exact (proj1 (unmatched_criterion_is_ignored by_unknown_name_and_language ∅)
               unknown_name_selects_nothing).
Defined.

Lemma sample_modified_within_registry (files : gset Path) :
  get_modified_connectors files ALL_CONNECTORS (enable_dependency_scanning by_name)
    ⊆ ALL_CONNECTORS.
Proof.
  intros c. unfold get_modified_connectors.
  rewrite elem_of_union, elem_of_filter.
  cbn [enable_dependency_scanning by_name].
  intros [[_ Hc]|Hc]; [done|]. by apply not_elem_of_empty in Hc.
Qed.

Lemma selected_within_registry_witness :
  selected_connectors by_name changed_files ⊆ ALL_CONNECTORS.
Proof.
  apply (selected_within_registry by_name changed_files).
  apply sample_modified_within_registry.
Defined.



Lemma metadata_changes_only_without_files_witness :
  metadata_changes_only by_name_metadata_only = true
  ∧ (get_selected_connectors_with_modified_files by_name_metadata_only ∅).2 = [].
Proof.
  split; [reflexivity|].
  exact (metadata_changes_only_without_files by_name_metadata_only eq_refl).
Defined.

End CommandsExtra.

(** * Further properties of [sponsored_products.py] *)

Module SponsoredProductsExtra.
Import SponsoredProducts SponsoredProductsSpec.

(** ** The response of the streams sliced by ad group *)

Lemma yielded_warn already w : yielded (warn already w) = already.
Proof. by destruct w. Qed.

Lemma logged_warn already w :
  logged (warn already w) ≠ [] →
  raised (warn already w) = None ∧ length (logged (warn already w)) = 1%nat.
Proof. by destruct w. Qed.

Lemma error_status_is_falsy response :
  400 ≤ status_code response < 600 → ok response = false.
Proof.
  intros Hst. unfold ok. by rewrite raise_for_status_error.
Qed.

(** X10. [parse_response] yields at most one record, and only for status 200:
    the record is then the decoded body. *)
Theorem parse_response_yields_only_on_ok (response : Response) :
  (length (yielded (parse_response response)) ≤ 1)%nat
  ∧ ∀ record, record ∈ yielded (parse_response response) →
              status_code response = OK ∧ json response = Some record.
Proof.
  unfold parse_response. destruct (json response) as [resp|].
  - assert (yielded
              (if status_code response =? BAD_REQUEST then _
               else if status_code response =? UNPROCESSABLE_ENTITY then _
               else if status_code response =? NOT_FOUND then _ else _)
            = (if status_code response =? OK then [resp] else [])) as ->.
    { repeat case_match; try apply yielded_warn; done. }
    destruct (Z.eqb_spec (status_code response) OK) as [Hst|Hst]; simpl.
    + split; [lia|]. by intros record ->%list_elem_of_singleton.
    + split; [lia|]. by intros record ?%elem_of_nil.
  - simpl. split; [lia|]. by intros record ?%elem_of_nil.
Qed.

(** X11. A response that [parse_response] logs a warning for is one of status
    400, 404 or 422; it gives one warning, no record and no exception, and
    [next_page_token] finds no continuation token in it: the pages of that
    slice end there. *)
Theorem parse_response_warning_is_a_skip (response : Response) :
  logged (parse_response response) ≠ [] →
  (status_code response = BAD_REQUEST ∨ status_code response = NOT_FOUND
   ∨ status_code response = UNPROCESSABLE_ENTITY)
  ∧ length (logged (parse_response response)) = 1%nat
  ∧ yielded (parse_response response) = []
  ∧ raised (parse_response response) = None
  ∧ next_page_token (Some response) = Ok JNull.
Proof.
  unfold parse_response. destruct (json response) as [resp|]; [|done].
  unfold OK, BAD_REQUEST, NOT_FOUND, UNPROCESSABLE_ENTITY.
  destruct (Z.eqb_spec (status_code response) 400) as [H400|H400];
    [|destruct (Z.eqb_spec (status_code response) 422) as [H422|H422];
      [|destruct (Z.eqb_spec (status_code response) 404) as [H404|H404];
        [|done]]].
  all: intros Hlog; apply logged_warn in Hlog as [Hraised Hlen];
    rewrite yielded_warn;
    destruct (Z.eqb_spec (status_code response) 200) as [H200|H200]; [lia|];
    repeat split; auto;
    simpl; rewrite error_status_is_falsy by lia; done.
Qed.

(** X12. A 422 answering a request whose body is what the bid
    recommendations built from a slice is skipped: no record, no exception,
    and the warning carries the [adGroupId] of the slice. *)
Theorem bid_recommendations_422_is_skipped
    (self : Stream) (state : gmap string JSON) (slice : option (gmap string JSON))
    (token : JSON) (sent : gmap string JSON) (response : Response) (resp : JSON) :
  SponsoredProductAdGroupBidRecommendations_request_body_json
    self state slice token = Ok sent →
  body (request response) = Ok (JDict sent) →
  json response = Some resp →
  status_code response = UNPROCESSABLE_ENTITY →
  ∃ adGroupId,
    slice ≫= (.!! "adGroupId") = Some adGroupId
    ∧ parse_response response
        = {| yielded := [];
             logged := [SkipNoAsins adGroupId (url (request response))];
             raised := None |}.
Proof.
  intros Hsent Hbody Hjson Hst.
  assert (returns (SponsoredProductAdGroupBidRecommendations_request_body_json
                     self state slice token)) as Hret by by exists sent.
  apply bid_recommendations_returns in Hret as (d & -> & [a Ha] & [c Hc]).
  rewrite (bid_recommendations_some _ _ _ _ a c) in Hsent by done.
  injection Hsent as <-. exists a. split; [done|].
  unfold parse_response. rewrite Hjson, Hst, Hbody. simpl.
  unfold bid_recommendations_body. by simplify_map_eq.
Qed.

(** X13. A 422 answering a request whose body is the one of
    [SponsoredProductsV3], as the suggested keywords send it, is not skipped:
    formatting the warning raises [KeyError] on [adGroupId]. *)
Theorem inherited_body_422_raises
    (self : Stream) (state : gmap string JSON) (slice : option (gmap string JSON))
    (token : JSON) (sent : gmap string JSON) (response : Response) (resp : JSON) :
  stream_class self = SponsoredProductAdGroupSuggestedKeywords →
  request_body_json self state slice token = Ok sent →
  body (request response) = Ok (JDict sent) →
  json response = Some resp →
  status_code response = UNPROCESSABLE_ENTITY →
  parse_response response
    = {| yielded := []; logged := []; raised := Some (KeyError "adGroupId") |}.
Proof.
  intros Hcls Hsent Hbody Hjson Hst.
  rewrite inherits_request_body_json in Hsent by by rewrite Hcls.
  injection Hsent as <-.
  unfold parse_response. rewrite Hjson, Hst, Hbody. simpl.
  by rewrite V3_body_other.
Qed.

(** ** Request headers *)

Lemma request_headers_ok self super_headers inherited media_type :
  self_content_type self inherited = Ok media_type →
  request_headers self super_headers inherited
    = Ok (<["Content-Type" := media_type]> (<["Accept" := media_type]> super_headers)).
Proof. intros Hct. unfold request_headers. by rewrite Hct. Qed.

Lemma request_headers_inv self super_headers inherited sent :
  request_headers self super_headers inherited = Ok sent →
  ∃ media_type,
    self_content_type self inherited = Ok media_type
    ∧ sent = <["Content-Type" := media_type]> (<["Accept" := media_type]> super_headers).
Proof.
  unfold request_headers.
  destruct (self_content_type self inherited) as [media_type|e]; simpl; [|done].
  intros [= <-]. by exists media_type.
Qed.

(** X14. The headers [request_headers] returns carry one media type under both
    [Accept] and [Content-Type], replacing what the base class had there, and
    keep every other header of the base class.  Only the suggested keywords,
    which define no content type of their own, can fail to return. *)
Theorem request_headers_media_type
    (self : Stream) (super_headers : gmap string string) (inherited : Result string) :
  (∀ sent, request_headers self super_headers inherited = Ok sent →
     ∃ media_type,
       self_content_type self inherited = Ok media_type
       ∧ sent !! "Accept" = Some media_type
       ∧ sent !! "Content-Type" = Some media_type
       ∧ ∀ name, name ≠ "Accept" → name ≠ "Content-Type" →
                 sent !! name = super_headers !! name)
  ∧ (stream_class self ≠ SponsoredProductAdGroupSuggestedKeywords →
       returns (request_headers self super_headers inherited))
  ∧ (stream_class self = SponsoredProductAdGroupSuggestedKeywords →
       ∀ e, inherited = Raise e →
            request_headers self super_headers inherited = Raise e).
Proof.
  split; [|split].
  - intros sent (media_type & Hct & ->)%request_headers_inv.
    exists media_type. split; [done|].
    split; [by simplify_map_eq|]. split; [by simplify_map_eq|].
    intros name H1 H2. by simplify_map_eq.
  - intros Hcls. unfold returns, request_headers, self_content_type.
    destruct (stream_class self); simpl; eauto. done.
  - intros Hcls e ->. unfold request_headers, self_content_type.
    by rewrite Hcls.
Qed.

(** X15. The scope header of the base class survives [request_headers], so a
    400 or 404 answering a request sent with these headers is skipped with a
    warning that names the scope: formatting it cannot raise. *)
Theorem scope_header_reaches_the_warning
    (self : Stream) (super_headers sent : gmap string string)
    (inherited : Result string) (scope : string) (response : Response) (resp : JSON) :
  request_headers self super_headers inherited = Ok sent →
  super_headers !! scope_header = Some scope →
  headers (request response) = sent →
  json response = Some resp →
  (status_code response = BAD_REQUEST →
     parse_response response
       = {| yielded := [];
            logged := [SkipUnsupported (url (request response)) scope
                                       (text response)];
            raised := None |})
  ∧ (status_code response = NOT_FOUND →
       parse_response response
         = {| yielded := [];
              logged := [SkipNoBid (url (request response)) scope (text response)];
              raised := None |}).
Proof.
  intros (media_type & _ & ->)%request_headers_inv Hscope Hheaders Hjson.
  assert (headers (request response) !! scope_header = Some scope) as Hsent.
  { rewrite Hheaders. unfold scope_header in *. by simplify_map_eq. }
  split; intros Hst; unfold parse_response, scope_of;
    by rewrite Hjson, Hst, Hsent.
Qed.

(** ** Continuation token and request body *)

(** X16. [next_page_token] raises exactly for a truthy response whose body is
    not valid JSON (the decode error) or is JSON but not an object (an
    attribute error); for an absent or falsy response it never raises. *)
Theorem next_page_token_raises (response : option Response) (e : Exn) :
  next_page_token response = Raise e
  ↔ ∃ r, response = Some r ∧ ok r = true
         ∧ ((json r = None ∧ e = JSONDecodeError)
            ∨ (∃ doc, json r = Some doc ∧ (∀ d, doc ≠ JDict d)
                      ∧ e = AttributeError)).
Proof.
  split.
  - destruct response as [r|]; simpl; [|done].
    destruct (ok r) eqn:Hok; simpl; [|done].
    destruct (json r) as [doc|] eqn:Hjson.
    + intros Hget. exists r. split; [done|]. split; [done|]. right.
      exists doc. split; [done|].
      destruct doc; simpl in Hget; try done;
        injection Hget as <-; by split.
    + intros [= <-]. exists r. split; [done|]. split; [done|]. by left.
  - intros (r & -> & Hok & [[Hjson ->]|(doc & Hjson & Hdoc & ->)]); simpl;
      rewrite Hok, Hjson; simpl; [done|].
    destruct doc; try done. by destruct (Hdoc d).
Qed.

(** X17. A stream other than the bid recommendations that is created without
    a config, or with a config that has no state filter, a null one or an
    empty list, sends a body of exactly the two entries [maxResults] and
    [nextToken]. *)
Theorem body_without_state_filter
    (cls : StreamClass) (config : option (gmap string JSON)) (size : Z)
    (state : gmap string JSON) (slice : option (gmap string JSON)) (token : JSON) :
  cls ≠ SponsoredProductAdGroupBidRecommendations →
  (config = None
   ∨ ∃ c, config = Some c
          ∧ (c !! "state_filter" = None ∨ c !! "state_filter" = Some JNull
             ∨ c !! "state_filter" = Some (JList []))) →
  request_body_json (init cls config size) state slice token
    = Ok (<["nextToken" := token]> {["maxResults" := JInt size]}).
Proof.
  intros Hcls Hconfig.
  rewrite inherits_request_body_json by done.
  unfold SponsoredProductsV3_request_body_json, init. cbn [state_filter page_size].
  assert (truthy (default JNull (default ∅ config !! "state_filter")) = false)
    as ->; [|done].
  destruct Hconfig as [->|(c & -> & [Hc|[Hc|Hc]])]; simpl.
  - by rewrite lookup_empty.
  - by rewrite Hc.
  - by rewrite Hc.
  - by rewrite Hc.
Qed.

(** X18. The token [next_page_token] reads from a truthy response with a JSON
    object goes unchanged into the next body of [SponsoredProductsV3]: the
    [nextToken] sent is the [nextToken] received, [None] when there was
    none. *)
Theorem continuation_token_round_trip
    (self : Stream) (state : gmap string JSON) (slice : option (gmap string JSON))
    (response : Response) (d : gmap string JSON) :
  ok response = true → json response = Some (JDict d) →
  ∃ token,
    next_page_token (Some response) = Ok token
    ∧ SponsoredProductsV3_request_body_json self state slice token !! "nextToken"
        = Some (default JNull (d !! "nextToken")).
Proof.
  intros Hok Hjson. eexists. split.
  - by apply next_page_token_of_dict.
  - apply V3_body_nextToken.
Qed.

(** ** On the sample streams and responses *)

Import Examples.

Lemma parse_response_warning_is_a_skip_witness :
  logged (parse_response not_found_404) ≠ []
  ∧ yielded (parse_response not_found_404) = []
  ∧ raised (parse_response not_found_404) = None
  ∧ next_page_token (Some not_found_404) = Ok JNull.
Proof.
  assert (logged (parse_response not_found_404) ≠ []) as Hlog by discriminate.
  split; [exact Hlog|].
  destruct (parse_response_warning_is_a_skip not_found_404 Hlog)
    as (_ & _ & Hyielded & Hraised & Htoken).
  by repeat split.
Defined.

Lemma bid_recommendations_422_is_skipped_witness :
  parse_response no_asins_bid_422
    = {| yielded := [];
         logged := [SkipNoAsins (JInt 1) (url (request no_asins_bid_422))];
         raised := None |}.
Proof.
  destruct ad_group_ids as (Ha & Hc & _).
  destruct (bid_recommendations_422_is_skipped
              bid_recommendations ∅ (Some ad_group) JNull
              (bid_recommendations_body (JInt 1) (JInt 2))
              no_asins_bid_422 (JDict ∅))
    as (adGroupId & Hid & Hparse); [by apply bid_recommendations_some | done..|].
  simpl in Hid. rewrite Ha in Hid. injection Hid as <-. exact Hparse.
Defined.

Lemma inherited_body_422_raises_witness :
  parse_response no_asins_422
    = {| yielded := []; logged := []; raised := Some (KeyError "adGroupId") |}.
Proof.
  apply (inherited_body_422_raises suggested_keywords ∅ (Some ad_group) JNull
           (SponsoredProductsV3_request_body_json
              suggested_keywords ∅ (Some ad_group) JNull) no_asins_422 (JDict ∅));
    reflexivity.
Defined.

Lemma scope_header_reaches_the_warning_witness :
  parse_response bad_request_400
    = {| yielded := [];
         logged := [SkipUnsupported (url (request bad_request_400)) "profile-1"
                                    (text bad_request_400)];
         raised := None |}.
Proof.
  apply (scope_header_reaches_the_warning
           bid_recommendations {[scope_header := "profile-1"]}
           (headers (request bad_request_400)) (Raise AttributeError)
           "profile-1" bad_request_400 (JDict ∅)); reflexivity.
Defined.

Lemma next_page_token_raises_witness :
  next_page_token (Some array_200) = Raise AttributeError.
Proof.
  apply next_page_token_raises. exists array_200.
  split; [reflexivity|]. split; [reflexivity|]. right.
  exists (JList []). by repeat split.
Defined.

Lemma body_without_state_filter_witness :
  request_body_json (init SponsoredProductKeywords None 100) ∅ None (JString "A")
    = Ok (<["nextToken" := JString "A"]> {["maxResults" := JInt 100]}).
Proof.
  apply body_without_state_filter; [discriminate | by left].
Defined.

Lemma continuation_token_round_trip_witness :
  ∃ token,
    next_page_token (Some page_with_token) = Ok token
    ∧ SponsoredProductsV3_request_body_json campaigns ∅ None token !! "nextToken"
        = Some (JString "A").
Proof.
  destruct (continuation_token_round_trip campaigns ∅ None page_with_token
              (<["nextToken" := JString "A"]> {["campaigns" := JList []]})
              eq_refl eq_refl) as (token & Htoken & Hsent).
  exists token. split; [exact Htoken|].
  rewrite Hsent. by rewrite lookup_insert_eq.
Defined.

End SponsoredProductsExtra.
